(** * Social Media AI Assistant (app.py): a shallow embedding

    The program is one Streamlit script.  Its pure parts (the platform
    table, the string helpers) are Rocq functions; the code that can raise
    lives in an exception monad; the code that mutates [st.session_state]
    lives in a state-and-exception monad in which a mutation made before an
    exception stays made, as in Python.  Everything the script obtains from
    outside (the process environment, the hosted model, the clock, the
    values the widgets return) is an explicit argument.

    A Python [str] is a [string] whose characters are the code points below
    256; a Python [int] is a [Z]; the float literal [0.7] is the rational
    7/10; the [float] a division of two ints gives is a finite binary64
    value, kept as its sign, mantissa and exponent. *)

From Stdlib Require Import String Ascii List ZArith QArith Qabs Bool Arith Lia.
From Stdlib Require Import DecimalString.
Import ListNotations.
Local Open Scope string_scope.
Local Open Scope Z_scope.

(** ** Python strings *)

Module PyStr.

Definition ord (c : ascii) : nat := nat_of_ascii c.
Definition chr (n : nat) : ascii := ascii_of_nat n.

Definition dquote : ascii := chr 34.
Definition squote : ascii := chr 39.
Definition backslash : ascii := chr 92.
Definition newline : string := String (chr 10) "".

(** [str.isspace] on one character, for the code points below 256:
    TAB, LF, VT, FF, CR, FS, GS, RS, US, SPACE, NEL and NBSP. *)
Definition isspace (c : ascii) : bool :=
  let n := ord c in
  ((9 <=? n) && (n <=? 13) || (28 <=? n) && (n <=? 32)
   || (n =? 133) || (n =? 160))%nat.

Fixpoint lstrip (s : string) : string :=
  match s with
  | EmptyString => EmptyString
  | String c s' => if isspace c then lstrip s' else s
  end.

Fixpoint rstrip (s : string) : string :=
  match s with
  | EmptyString => EmptyString
  | String c s' =>
      match rstrip s' with
      | EmptyString => if isspace c then EmptyString else String c EmptyString
      | r => String c r
      end
  end.

(** [s.strip()] *)
Definition strip (s : string) : string := rstrip (lstrip s).

(** [str.isprintable] on one character, for the code points below 256. *)
Definition isprintable (c : ascii) : bool :=
  let n := ord c in
  ((32 <=? n) && (n <? 127) || (161 <=? n) && negb (n =? 173))%nat.

Definition hexdigit (n : nat) : ascii :=
  nth n (list_ascii_of_string "0123456789abcdef") "0"%char.

Definition contains (c : ascii) (s : string) : bool :=
  existsb (Ascii.eqb c) (list_ascii_of_string s).

(** One character of [repr(s)], inside the quotes [q]. *)
Definition repr_char (q c : ascii) : string :=
  let n := ord c in
  if (Ascii.eqb c q || Ascii.eqb c backslash)%bool then String backslash (String c "")
  else if (n =? 9)%nat then String backslash "t"
  else if (n =? 10)%nat then String backslash "n"
  else if (n =? 13)%nat then String backslash "r"
  else if isprintable c then String c ""
  else String backslash
         (String "x" (String (hexdigit (n / 16)) (String (hexdigit (n mod 16)) ""))).

Fixpoint repr_body (q : ascii) (s : string) : string :=
  match s with
  | EmptyString => EmptyString
  | String c s' => repr_char q c ++ repr_body q s'
  end.

(** [repr(s)]: single quotes, unless [s] has a single quote and no double
    quote. *)
Definition repr (s : string) : string :=
  let q := if (contains squote s && negb (contains dquote s))%bool
           then dquote else squote in
  String q (repr_body q s ++ String q "").

(** Truth value of a [str]: the empty string is false. *)
Definition truthy (s : string) : bool :=
  match s with EmptyString => false | _ => true end.


End PyStr.

(** ** Exceptions *)

(** The exceptions of the model are instances of Python's [Exception]: the
    ones the script's own statements can raise, and [ExternalError] for
    whatever the LangChain and Groq clients raise (transport, credentials,
    quota, malformed answer).  [KeyboardInterrupt] and [SystemExit] are not
    failures of the program and are not modelled. *)
Inductive Exception : Type :=
| KeyError (key : string)
| ValueError (msg : string)
| AttributeError (msg : string)
| ZeroDivisionError (msg : string)
| OverflowError (msg : string)
| StreamlitAPIException (msg : string)
| ExternalError (class_name msg : string).

(** [str(e)] *)
Definition str_of_exception (e : Exception) : string :=
  match e with
  | KeyError k => PyStr.repr k
  | ValueError m | AttributeError m | ZeroDivisionError m | OverflowError m
  | StreamlitAPIException m => m
  | ExternalError _ m => m
  end.

Inductive Result (A : Type) : Type :=
| Ok (a : A)
| Raise (e : Exception).
Arguments Ok {A} a.
Arguments Raise {A} e.

Definition Result_bind {A B} (c : Result A) (k : A -> Result B) : Result B :=
  match c with
  | Ok a => k a
  | Raise e => Raise e
  end.

(** [try: body  except Exception as e: handler(e)] *)
Definition try_except {A} (body : Result A) (handler : Exception -> Result A)
  : Result A :=
  match body with
  | Ok a => Ok a
  | Raise e => handler e
  end.

Declare Scope result_scope.
Delimit Scope result_scope with result.
Notation "x <- c ;; k" := (Result_bind c (fun x => k))
  (at level 61, c at next level, right associativity) : result_scope.
Notation "'_' <- c ;; k" := (Result_bind c (fun _ => k))
  (at level 61, c at next level, right associativity) : result_scope.

(** ** PlatformCatalog: [PLATFORM_CONFIG] *)

Record PlatformRules : Type := {
  max_length : Z;
  tone : string
}.

(** A [dict] with [str] keys, in insertion order. *)
Definition dict (V : Type) : Type := list (string * V).

Fixpoint dict_get {V} (d : dict V) (k : string) : option V :=
  match d with
  | [] => None
  | (k', v) :: d' => if String.eqb k k' then Some v else dict_get d' k
  end.

(** [d[k]] *)
Definition dict_getitem {V} (d : dict V) (k : string) : Result V :=
  match dict_get d k with
  | Some v => Ok v
  | None => Raise (KeyError k)
  end.

(** [list(d.keys())] *)
Definition dict_keys {V} (d : dict V) : list string := map fst d.

Definition PLATFORM_CONFIG : dict PlatformRules := [
  ("Twitter/X", {| max_length := 280; tone := "concise" |});
  ("Facebook", {| max_length := 800; tone := "friendly" |});
  ("LinkedIn", {| max_length := 1200; tone := "professional" |});
  ("Instagram", {| max_length := 300; tone := "creative" |});
  ("General", {| max_length := 500; tone := "neutral" |})
].

(** ** ResponseGenerator: [generate_ai_response] *)

(** The arguments of the [ChatGroq(...)] constructor call. *)
Record ChatGroq : Type := {
  api_key : option string;
  model_name : string;
  temperature : Q;
  max_tokens : Z
}.

(** [ChatPromptTemplate.from_messages]: (role, template) pairs. *)
Definition ChatPromptTemplate : Type := list (string * string).

(** [prompt | model | StrOutputParser()] *)
Record Chain : Type := {
  chain_prompt : ChatPromptTemplate;
  chain_model : ChatGroq
}.

Inductive PyValue : Type :=
| PyStrV (s : string)
| PyIntV (n : Z).

(** What lies outside the program during one call: the process environment
    (after [load_dotenv()]), the construction of the Groq client and the
    invocation of the chain on the hosted model. *)
Record World : Type := {
  getenv : string -> option string;
  ChatGroq_init : ChatGroq -> Result unit;
  invoke : Chain -> dict PyValue -> Result string
}.

Definition SYSTEM_TEMPLATE : string :=
  "You are a professional social media manager assistant. " ++ PyStr.newline ++
  "             Respond to the user's query in {tone} tone. " ++ PyStr.newline ++
  "             Keep response under {max_length} characters. " ++ PyStr.newline ++
  "             Include platform-specific best practices.".

Definition PROMPT : ChatPromptTemplate :=
  [("system", SYSTEM_TEMPLATE); ("user", "{input}")].

(** [ChatGroq(...)]: the object holds the arguments it was built from,
    when the client accepts them. *)
Definition new_ChatGroq (w : World) (args : ChatGroq) : Result ChatGroq :=
  (_ <- ChatGroq_init w args ;; Ok args)%result.

(** The keyword arguments of line 45-50 for one catalog entry. *)
Definition model_args (w : World) (platform_rules : PlatformRules) : ChatGroq :=
  {| api_key := getenv w "GROQ_API_KEY";
     model_name := "llama-3.3-70b-specdec";
     temperature := 7 # 10;
     max_tokens := Z.min (max_length platform_rules) 1024 |}.

(** The dictionary of line 55-59. *)
Definition chain_input (user_prompt : string) (platform_rules : PlatformRules)
  : dict PyValue :=
  [("input", PyStrV user_prompt);
   ("tone", PyStrV (tone platform_rules));
   ("max_length", PyIntV (max_length platform_rules))].

(** The body of the [try] (lines 32-61). *)
Definition generation_attempt (w : World) (user_prompt platform : string)
  : Result string :=
  (platform_rules <- dict_getitem PLATFORM_CONFIG platform ;;
   let prompt := PROMPT in
   model <- new_ChatGroq w (model_args w platform_rules) ;;
   let chain := {| chain_prompt := prompt; chain_model := model |} in
   response <- invoke w chain (chain_input user_prompt platform_rules) ;;
   Ok (PyStr.strip response))%result.

Definition ERROR_PREFIX : string := "Error generating response: ".

Definition generate_ai_response (w : World) (user_prompt platform : string)
  : Result string :=
  try_except (generation_attempt w user_prompt platform)
    (fun e => Ok (ERROR_PREFIX ++ str_of_exception e)).

(** ** ConversationStore: [st.session_state] *)

Record Message : Type := {
  role : string;
  content : string;
  platform : string;
  time : string
}.

(** The four keys the script keeps in [st.session_state]; [None] is a key
    that is not there. *)
Record SessionState : Type := {
  messages : option (list Message);
  selected_platform : option string;
  ratings : option (list Z);
  rate_response : option (option Z)
}.

(** A new browser session: no key yet. *)
Definition fresh_session : SessionState :=
  {| messages := None; selected_platform := None;
     ratings := None; rate_response := None |}.

(** Code that reads and writes the session state and can raise. *)
Definition M (A : Type) : Type := SessionState -> Result A * SessionState.

Definition ret {A} (a : A) : M A := fun s => (Ok a, s).

Definition bind {A B} (c : M A) (k : A -> M B) : M B :=
  fun s =>
    match c s with
    | (Ok a, s') => k a s'
    | (Raise e, s') => (Raise e, s')
    end.

Definition lift {A} (r : Result A) : M A := fun s => (r, s).

Declare Scope session_scope.
Delimit Scope session_scope with session.
Notation "x <- c ;; k" := (bind c (fun x => k))
  (at level 61, c at next level, right associativity) : session_scope.
Notation "c ;; k" := (bind c (fun _ => k))
  (at level 61, right associativity) : session_scope.

Definition getattr {A} (name : string) (field : SessionState -> option A) : M A :=
  fun s =>
    match field s with
    | Some a => (Ok a, s)
    | None => (Raise (AttributeError ("st.session_state has no attribute " ++ name)), s)
    end.

Definition set_messages (v : list Message) : M unit :=
  fun s => (Ok tt, {| messages := Some v; selected_platform := selected_platform s;
                      ratings := ratings s; rate_response := rate_response s |}).

Definition set_selected_platform (v : string) : M unit :=
  fun s => (Ok tt, {| messages := messages s; selected_platform := Some v;
                      ratings := ratings s; rate_response := rate_response s |}).

Definition set_ratings (v : list Z) : M unit :=
  fun s => (Ok tt, {| messages := messages s; selected_platform := selected_platform s;
                      ratings := Some v; rate_response := rate_response s |}).

Definition set_rate_response (v : option Z) : M unit :=
  fun s => (Ok tt, {| messages := messages s; selected_platform := selected_platform s;
                      ratings := ratings s; rate_response := Some v |}).

(** [if key not in st.session_state: st.session_state.key = v] *)
Definition setdefault {A} (field : SessionState -> option A) (set : A -> M unit)
  (v : A) : M unit :=
  fun s => match field s with
           | Some _ => (Ok tt, s)
           | None => set v s
           end.

(** Lines 22-27, run at the top of every script run. *)
Definition module_init : M unit :=
  (setdefault messages set_messages [] ;;
   setdefault selected_platform set_selected_platform "General" ;;
   setdefault ratings set_ratings [])%session.

(** [st.session_state.messages.append(msg)] *)
Definition append_message (msg : Message) : M unit :=
  (ms <- getattr "messages" messages ;;
   set_messages (ms ++ [msg]))%session.

(** Truth value of the [Optional[int]] the rating widget returns. *)
Definition rating_truthy (selected_rating : option Z) : bool :=
  match selected_rating with
  | Some v => negb (v =? 0)
  | None => false
  end.

(** Lines 145-147: [if selected_rating:], the append to the ratings and the
    text [st.success] shows. *)
Definition append_rating (selected_rating : option Z) : M (option string) :=
  match selected_rating with
  | Some v =>
      if rating_truthy selected_rating
      then (rs <- getattr "ratings" ratings ;;
            set_ratings (rs ++ [v]) ;;
            ret (Some "Thanks for your feedback!"))%session
      else ret None
  | None => ret None
  end.

(** Lines 152-153. *)
Definition reset : M unit :=
  (set_messages [] ;; set_ratings [])%session.

(** What the renderer and the analytics read. *)
Definition snapshot (s : SessionState) : list Message * list Z :=
  (match messages s with Some ms => ms | None => [] end,
   match ratings s with Some rs => rs | None => [] end).

(** ** Analytics: [display_analytics] *)

(** ** Python floats *)

Module PyFloat.

(** A finite binary64 value: [mantissa * 2 ^ exponent], negated when
    [negative].  A zero keeps its sign. *)
Record float : Type := { negative : bool; mantissa : Z; exponent : Z }.

(** [num / den] rounded to the nearest integer, a tie going to the even
    one; [0 <= num] and [0 < den]. *)
Definition round_half_even (num den : Z) : Z :=
  let q := num / den in
  let r := num mod den in
  if 2 * r <? den then q
  else if den <? 2 * r then q + 1
  else if Z.even q then q else q + 1.

(** The integer part of the binary logarithm of [a / b]; [0 < a] and
    [0 < b]. *)
Definition floor_log2 (a b : Z) : Z :=
  let k := Z.log2 a - Z.log2 b in
  if b * 2 ^ Z.max 0 k <=? a * 2 ^ Z.max 0 (- k) then k else k - 1.

(** [a / b] rounded to 53 significant bits, or to a multiple of [2 ^ -1074]
    below the normal range: the mantissa and the exponent. *)
Definition nearest (a b : Z) : Z * Z :=
  let e := Z.max (floor_log2 a b - 52) (-1074) in
  (round_half_even (a * 2 ^ Z.max 0 (- e)) (b * 2 ^ Z.max 0 e), e).

(** The rounded value is [2 ^ 1024] or more. *)
Definition overflows (m e : Z) : bool :=
  (0 <=? e) && (2 ^ 1024 <=? m * 2 ^ e).

(** The correctly rounded quotient of two ints, [b] not zero; [None] when
    it is too large for a float. *)
Definition div (a b : Z) : option float :=
  let sign := xorb (a <? 0) (b <? 0) in
  if a =? 0 then Some {| negative := sign; mantissa := 0; exponent := 0 |}
  else
    let '(m, e) := nearest (Z.abs a) (Z.abs b) in
    if overflows m e then None
    else Some {| negative := sign; mantissa := m; exponent := e |}.

(** The number a float stands for. *)
Definition value (f : float) : Q :=
  let v := if 0 <=? exponent f
           then inject_Z (mantissa f * 2 ^ exponent f)
           else mantissa f # Z.to_pos (2 ^ (- exponent f)) in
  if negative f then (- v)%Q else v.

(** The absolute value in tenths, rounded to the nearest integer, a tie
    going to the even one. *)
Definition tenths (f : float) : Z :=
  round_half_even (10 * mantissa f * 2 ^ Z.max 0 (exponent f))
    (2 ^ Z.max 0 (- exponent f)).

(** [str(n)] for [0 <= n]. *)
Definition decimal (n : Z) : string :=
  NilZero.string_of_uint (N.to_uint (Z.to_N n)).

(** [format(f, ".1f")] *)
Definition format_1f (f : float) : string :=
  (if negative f then "-" else "") ++
  decimal (tenths f / 10) ++ "." ++ decimal (tenths f mod 10).

End PyFloat.

(** [MetricStars shown] is the f-string of line 71: [shown], a blank and
    the star U+2B50, a character above 255 that a [string] cannot hold. *)
Inductive MetricValue : Type :=
| MetricInt (n : Z)
| MetricStr (s : string)
| MetricStars (shown : string).

Definition len {A} (l : list A) : Z := Z.of_nat (length l).

(** [sum(l)] *)
Definition sum (l : list Z) : Z := fold_left Z.add l 0.

(** [a / b] on ints: the float nearest the quotient. *)
Definition truediv (a b : Z) : Result PyFloat.float :=
  if b =? 0 then Raise (ZeroDivisionError "division by zero")
  else match PyFloat.div a b with
       | Some f => Ok f
       | None => Raise (OverflowError "integer division result too large for a float")
       end.

Definition list_truthy {A} (l : list A) : bool :=
  match l with [] => false | _ => true end.

(** The sidebar metrics, as (label, value) pairs in display order. *)
Definition display_analytics : M (list (string * MetricValue)) :=
  (ms <- getattr "messages" messages ;;
   let total := ("Total Interactions", MetricInt (len ms)) in
   rs <- getattr "ratings" ratings ;;
   if list_truthy rs then
     rs1 <- getattr "ratings" ratings ;;
     rs2 <- getattr "ratings" ratings ;;
     avg_rating <- lift (truediv (sum rs1) (len rs2)) ;;
     ret [total; ("Average Rating", MetricStars (PyFloat.format_1f avg_rating))]
   else
     ret [total; ("Average Rating", MetricStr "N/A")])%session.

(** ** The widgets and the clock *)

(** [l.index(x)] *)
Fixpoint list_index (l : list string) (x : string) : Result nat :=
  match l with
  | [] => Raise (ValueError (PyStr.repr x ++ " is not in list"))
  | y :: l' => if String.eqb x y then Ok 0%nat
               else (i <- list_index l' x ;; Ok (S i))%result
  end.

(** [st.selectbox(label, options, index)]: the option the user picked, or
    the one at [index] when the user picked none. *)
Definition st_selectbox {A} (options : list A) (index : nat) (choice : option nat)
  : Result A :=
  match nth_error options index with
  | None => Raise (StreamlitAPIException "Selectbox index out of range")
  | Some preselected =>
      Ok (match choice with
          | Some i => match nth_error options i with
                      | Some o => o
                      | None => preselected
                      end
          | None => preselected
          end)
  end.

(** [st.radio(label, options, index=None)]: the option the user picked, or
    [None]. *)
Definition st_radio {A} (options : list A) (choice : option nat) : option A :=
  match choice with
  | Some i => nth_error options i
  | None => None
  end.

Record datetime : Type := { hour : nat; minute : nat; second : nat }.

Definition two_digits (n : nat) : string :=
  String (PyStr.chr (48 + (n / 10) mod 10)) (String (PyStr.chr (48 + n mod 10)) "").

(** [t.strftime("%H:%M:%S")] *)
Definition strftime_HMS (t : datetime) : string :=
  two_digits (hour t) ++ ":" ++ two_digits (minute t) ++ ":" ++ two_digits (second t).

(** What one run of the script receives from outside: the world of the
    generation call, what each widget returns and the two clock readings. *)
Record Run : Type := {
  world : World;
  platform_choice : option nat;
  tone_choice : option nat;
  chat_input : option string;
  now_user : datetime;
  now_ai : datetime;
  rating_choice : option nat;
  clear_clicked : bool
}.

Definition TONE_OPTIONS : list string :=
  ["Professional"; "Friendly"; "Casual"; "Persuasive"].

Definition RATING_OPTIONS : list Z := [1; 2; 3; 4; 5].

(** ** SessionController: [main] *)

(** A chat block: [with st.chat_message(role):] around [st.markdown] and
    [st.caption]. *)
Record ChatBlock : Type := {
  block_role : string;
  block_markdown : string;
  block_caption : string
}.

(** The block lines 102-104 render for a stored message. *)
Definition chat_block (message : Message) : ChatBlock :=
  {| block_role := role message;
     block_markdown := content message;
     block_caption := platform message ++ " - " ++ time message |}.

(** What a run shows of the session and asks of the framework: the sidebar
    metrics, the title, the chat blocks in the order they are rendered (the
    history loop's, then those of a handled submission), the text of
    [st.success] and whether [st.rerun()] was called.  The widgets are in
    [Run], by what they return; the spinner of line 123 is gone when the
    call it wraps returns. *)
Record Page : Type := {
  sidebar_metrics : list (string * MetricValue);
  title : string;
  chat_blocks : list ChatBlock;
  feedback : option string;
  rerun : bool
}.

(** Lines 79-95. *)
Definition sidebar (io : Run) : M (list (string * MetricValue)) :=
  (current <- getattr "selected_platform" selected_platform ;;
   index <- lift (list_index (dict_keys PLATFORM_CONFIG) current) ;;
   selected <- lift (st_selectbox (dict_keys PLATFORM_CONFIG) index (platform_choice io)) ;;
   set_selected_platform selected ;;
   tone_preference <- lift (st_selectbox TONE_OPTIONS 0 (tone_choice io)) ;;
   display_analytics)%session.

(** Lines 108-147, the body of [if prompt := st.chat_input(...)]: the two
    chat blocks it renders and the text of [st.success]. *)
Definition handle_submission (io : Run) (prompt : string)
  : M (list ChatBlock * option string) :=
  (p_user <- getattr "selected_platform" selected_platform ;;
   let user_msg := {| role := "user"; content := prompt;
                      platform := p_user; time := strftime_HMS (now_user io) |} in
   append_message user_msg ;;
   let user_block := {| block_role := "user"; block_markdown := prompt;
                        block_caption := platform user_msg ++ " - " ++ time user_msg |} in
   p_call <- getattr "selected_platform" selected_platform ;;
   ai_response <- lift (generate_ai_response (world io) prompt p_call) ;;
   p_ai <- getattr "selected_platform" selected_platform ;;
   let ai_msg := {| role := "assistant"; content := ai_response;
                    platform := p_ai; time := strftime_HMS (now_ai io) |} in
   append_message ai_msg ;;
   let ai_block := {| block_role := "assistant"; block_markdown := ai_response;
                      block_caption := platform ai_msg ++ " - " ++ time ai_msg |} in
   setdefault rate_response set_rate_response None ;;
   let selected_rating := st_radio RATING_OPTIONS (rating_choice io) in
   set_rate_response selected_rating ;;
   thanks <- append_rating selected_rating ;;
   ret ([user_block; ai_block], thanks))%session.

(** Lines 107-147. *)
Definition submission_block (io : Run) : M (list ChatBlock * option string) :=
  match chat_input io with
  | Some prompt =>
      if PyStr.truthy prompt then handle_submission io prompt else ret ([], None)
  | None => ret ([], None)
  end.

(** Lines 150-154; the result is whether [st.rerun()] was called. *)
Definition reset_block (io : Run) : M bool :=
  (ms <- getattr "messages" messages ;;
   if list_truthy ms then
     if clear_clicked io then (reset ;; ret true) else ret false
   else ret false)%session.

Definition main (io : Run) : M Page :=
  (metrics <- sidebar io ;;
   p <- getattr "selected_platform" selected_platform ;;
   history <- getattr "messages" messages ;;
   shown <- submission_block io ;;
   again <- reset_block io ;;
   ret {| sidebar_metrics := metrics;
          title := "Social Media AI Assistant - " ++ p;
          chat_blocks := map chat_block history ++ fst shown;
          feedback := snd shown;
          rerun := again |})%session.

(** One run of the script: the module-level statements, then [main()]. *)
Definition script (io : Run) : M Page :=
  (module_init ;; main io)%session.

(** The states a session can be in: the fresh one, and the one any run
    leaves behind.  The runs are all those the types of the widgets allow;
    a browser sends fewer of them (the radio of a run that handles a
    submission has just been created and returns [None]), so what holds of
    every reachable state holds of every state a browser can produce. *)
Inductive reachable : SessionState -> Prop :=
| reachable_fresh : reachable fresh_session
| reachable_run (s : SessionState) (io : Run) :
    reachable s -> reachable (snd (script io s)).

(** ** Sample worlds and runs *)

(** No key in the environment: the Groq client refuses to be built. *)
Definition silent_world : World :=
  {| getenv := fun _ => None;
     ChatGroq_init := fun _ => Raise (ExternalError "GroqError" "The api_key client option must be set");
     invoke := fun _ _ => Ok "unreachable" |}.

(** A key, and a model that answers with the input, padded with blanks. *)
Definition echo_world : World :=
  {| getenv := fun _ => Some "gsk_test";
     ChatGroq_init := fun _ => Ok tt;
     invoke := fun c d => match dict_get d "input" with
                          | Some (PyStrV s) => Ok ("  Post: " ++ s ++ PyStr.newline)
                          | _ => Raise (KeyError "input")
                          end |}.

Definition noon : datetime := {| hour := 12; minute := 0; second := 7 |}.

Definition submit (w : World) (text : string) (rating : option nat) (clear : bool) : Run :=
  {| world := w; platform_choice := Some 0%nat; tone_choice := None;
     chat_input := Some text; now_user := noon; now_ai := noon;
     rating_choice := rating; clear_clicked := clear |}.

(** ** Specification-side definitions *)

(** The five names of the catalog, as the specification lists them. *)
Definition PLATFORM_NAMES : list string :=
  ["Twitter/X"; "Facebook"; "LinkedIn"; "Instagram"; "General"].

(** Roles alternate, the next one being "user" when [user_turn]. *)
Fixpoint alternates (user_turn : bool) (ms : list Message) : bool :=
  match ms with
  | [] => true
  | m :: ms' =>
      String.eqb (role m) (if user_turn then "user" else "assistant")
      && alternates (negb user_turn) ms'
  end.

(** A session state with its three keys set. *)
Definition session (ms : list Message) (p : string) (rs : list Z)
  (rr : option (option Z)) : SessionState :=
  {| messages := Some ms; selected_platform := Some p;
     ratings := Some rs; rate_response := rr |}.

(** What holds of the session between two runs of the script. *)
Record consistent (ms : list Message) (p : string) (rs : list Z) : Prop := {
  platform_known : In p (dict_keys PLATFORM_CONFIG);
  turns_alternate : alternates true ms = true;
  turns_paired : Nat.even (length ms) = true;
  ratings_need_messages : ms = [] -> rs = [];
  ratings_in_range : Forall (fun r => 1 <= r <= 5) rs
}.

Definition invariant (s : SessionState) : Prop :=
  s = fresh_session \/
  exists ms p rs rr, s = session ms p rs rr /\ consistent ms p rs.

(** The two messages lines 109-114 and 127-132 build, on platform [p]. *)
Definition user_message (io : Run) (p prompt : string) : Message :=
  {| role := "user"; content := prompt; platform := p;
     time := strftime_HMS (now_user io) |}.

Definition assistant_message (io : Run) (p text : string) : Message :=
  {| role := "assistant"; content := text; platform := p;
     time := strftime_HMS (now_ai io) |}.

(** The ratings after the radio returned [selected_rating]. *)
Definition rated (rs : list Z) (selected_rating : option Z) : list Z :=
  match selected_rating with
  | Some v => rs ++ [v]
  | None => rs
  end.

(** The submission a run handles, if any: [st.chat_input] returned a
    non-empty string. *)
Definition handled (io : Run) : option string :=
  match chat_input io with
  | Some prompt => if PyStr.truthy prompt then Some prompt else None
  | None => None
  end.

(** The arithmetic mean, in the specification's words: the sum of the
    ratings over their number. *)
Definition arithmetic_mean (l : list Z) : Q :=
  (inject_Z (fold_right Z.add 0%Z l) / inject_Z (Z.of_nat (length l)))%Q.

(** A session after one submission rated 4. *)
Definition rated_session : SessionState :=
  snd (script (submit echo_world "Announce our new product launch" (Some 3%nat) false)
         fresh_session).

(** The credential is refused: with the key of the environment, or with
    none, either the client cannot be built or every invocation fails. *)
Definition key_rejected (w : World) (e : Exception) : Prop :=
  forall args : ChatGroq,
    api_key args = getenv w "GROQ_API_KEY" ->
    ChatGroq_init w args = Raise e \/
    (ChatGroq_init w args = Ok tt /\
     forall prompt input,
       invoke w {| chain_prompt := prompt; chain_model := args |} input = Raise e).

(** What the platform selectbox returns in a run whose preselected option
    is [current]: the option the user picked, if there is one. *)
Definition chosen_platform (io : Run) (current : string) : string :=
  match platform_choice io with
  | Some i => match nth_error (dict_keys PLATFORM_CONFIG) i with
              | Some o => o
              | None => current
              end
  | None => current
  end.

(** The platform of a session: the stored one, or the default the
    module-level statements give a session that has none. *)
Definition current_platform (s : SessionState) : string :=
  match selected_platform s with
  | Some p => p
  | None => "General"
  end.

(** The same run in another world. *)
Definition with_world (w : World) (io : Run) : Run :=
  {| world := w; platform_choice := platform_choice io;
     tone_choice := tone_choice io; chat_input := chat_input io;
     now_user := now_user io; now_ai := now_ai io;
     rating_choice := rating_choice io; clear_clicked := clear_clicked io |}.

Definition first_char (s : string) : option ascii :=
  match s with
  | EmptyString => None
  | String c _ => Some c
  end.

Fixpoint last_char (s : string) : option ascii :=
  match s with
  | EmptyString => None
  | String c EmptyString => Some c
  | String _ s' => last_char s'
  end.

(** A stored message has one of the two roles and a platform of the
    catalog. *)
Definition well_formed_message (m : Message) : Prop :=
  (role m = "user" \/ role m = "assistant") /\ In (platform m) PLATFORM_NAMES.

(** What holds of the two sequences together, beyond [consistent]. *)
Record tidy (ms : list Message) (rs : list Z) : Prop := {
  messages_well_formed : Forall well_formed_message ms;
  ratings_per_exchange : (2 * length rs <= length ms)%nat
}.

(** What [display_analytics] returns for messages [ms] and ratings [rs]. *)
Definition analytics_of (ms : list Message) (rs : list Z)
  : Result (list (string * MetricValue)) :=
  match rs with
  | [] => Ok [("Total Interactions", MetricInt (len ms));
              ("Average Rating", MetricStr "N/A")]
  | _ => match truediv (sum rs) (len rs) with
         | Ok avg => Ok [("Total Interactions", MetricInt (len ms));
                         ("Average Rating", MetricStars (PyFloat.format_1f avg))]
         | Raise e => Raise e
         end
  end.

(** The two sidebar metrics for messages [ms] and ratings [rs], when the
    average is a float. *)
Definition metrics_of (ms : list Message) (rs : list Z)
  : list (string * MetricValue) :=
  match analytics_of ms rs with
  | Ok metrics => metrics
  | Raise _ => []
  end.

(** The text [st.success] shows after the radio returned [selected_rating],
    one of its options or nothing. *)
Definition thanks (selected_rating : option Z) : option string :=
  match selected_rating with
  | Some _ => Some "Thanks for your feedback!"
  | None => None
  end.

(** The chat blocks of a handled submission on platform [p]. *)
Definition exchange_blocks (io : Run) (p prompt text : string) : list ChatBlock :=
  [chat_block (user_message io p prompt); chat_block (assistant_message io p text)].

(** The rerun a click on option [i] of the rating radio triggers: the chat
    input returns nothing in it. *)
Definition rating_click (w : World) (i : nat) : Run :=
  {| world := w; platform_choice := None; tone_choice := None;
     chat_input := None; now_user := noon; now_ai := noon;
     rating_choice := Some i; clear_clicked := false |}.

(** A session after one submission, not rated yet. *)
Definition unrated_session : SessionState :=
  snd (script (submit echo_world "Announce our new product launch" None false)
         fresh_session).

(** A session after three submissions, rated 1, 2 and 2. *)
Definition thrice_rated_session : SessionState :=
  snd (script (submit echo_world "Third post" (Some 1%nat) false)
         (snd (script (submit echo_world "Second post" (Some 1%nat) false)
                 (snd (script (submit echo_world "First post" (Some 0%nat) false)
                         fresh_session))))).

(** [2 ^ 51] *)
Definition two_to_51 : positive := 2251799813685248.



(** * Properties *)

(** ** Helper lemmas *)

Section Helpers.

Local Open Scope bool_scope.


Lemma dict_get_catalog_none (name : string) :
  ~ In name PLATFORM_NAMES -> dict_get PLATFORM_CONFIG name = None.
Proof.
  intros H. unfold PLATFORM_CONFIG. simpl.
  repeat match goal with
  | |- context [String.eqb name ?k] =>
      destruct (String.eqb_spec name k) as [->|_];
      [exfalso; apply H; simpl; tauto|]
  end.
  reflexivity.
Qed.

Lemma dict_get_catalog_some (name : string) (r : PlatformRules) :
  dict_get PLATFORM_CONFIG name = Some r -> In name PLATFORM_NAMES.
Proof.
  unfold PLATFORM_CONFIG. simpl.
  repeat match goal with
  | |- context [String.eqb name ?k] =>
      destruct (String.eqb_spec name k) as [->|_]; [intros _; simpl; tauto|]
  end.
  discriminate.
Qed.

Lemma catalog_keys : dict_keys PLATFORM_CONFIG = PLATFORM_NAMES.
Proof. reflexivity. Qed.

Lemma dict_get_catalog_in (name : string) :
  In name PLATFORM_NAMES -> exists r, dict_get PLATFORM_CONFIG name = Some r.
Proof.
  simpl. intros H.
  repeat (destruct H as [<-|H]; [eexists; reflexivity|]).
  contradiction.
Qed.

(** The fail-soft equation: what [generate_ai_response] returns, by what the
    world did. *)
Lemma generate_cases (w : World) (user_prompt platform : string) :
  generate_ai_response w user_prompt platform =
  Ok match dict_get PLATFORM_CONFIG platform with
     | None => ERROR_PREFIX ++ PyStr.repr platform
     | Some rules =>
         match ChatGroq_init w (model_args w rules) with
         | Raise e => ERROR_PREFIX ++ str_of_exception e
         | Ok _ =>
             match invoke w {| chain_prompt := PROMPT;
                               chain_model := model_args w rules |}
                     (chain_input user_prompt rules) with
             | Raise e => ERROR_PREFIX ++ str_of_exception e
             | Ok response => PyStr.strip response
             end
         end
     end.
Proof.
  unfold generate_ai_response, generation_attempt, dict_getitem, new_ChatGroq.
  destruct (dict_get PLATFORM_CONFIG platform) as [rules|]; simpl; [|reflexivity].
  destruct (ChatGroq_init w (model_args w rules)); simpl; [|reflexivity].
  destruct (invoke w _ _); reflexivity.
Qed.

Lemma generate_returns (w : World) (user_prompt platform : string) :
  exists text, generate_ai_response w user_prompt platform = Ok text.
Proof. rewrite generate_cases. eexists; reflexivity. Qed.

End Helpers.

(** ** ResponseGenerator *)


(** C2. Looking up each of the five names gives the documented profile;
    looking up any other string raises [KeyError] (the program's
    UnknownPlatform). *)
Theorem PlatformCatalog_lookup_table :
  dict_getitem PLATFORM_CONFIG "Twitter/X"
    = Ok {| max_length := 280; tone := "concise" |} /\
  dict_getitem PLATFORM_CONFIG "Facebook"
    = Ok {| max_length := 800; tone := "friendly" |} /\
  dict_getitem PLATFORM_CONFIG "LinkedIn"
    = Ok {| max_length := 1200; tone := "professional" |} /\
  dict_getitem PLATFORM_CONFIG "Instagram"
    = Ok {| max_length := 300; tone := "creative" |} /\
  dict_getitem PLATFORM_CONFIG "General"
    = Ok {| max_length := 500; tone := "neutral" |} /\
  forall name : string,
    ~ In name PLATFORM_NAMES ->
    dict_getitem PLATFORM_CONFIG name = Raise (KeyError name).
Proof.
  repeat (split; [reflexivity|]).
  intros name H. unfold dict_getitem.
  rewrite (dict_get_catalog_none name H). reflexivity.
Qed.

Lemma PlatformCatalog_lookup_table_witness :
  ~ In "TikTok" PLATFORM_NAMES /\
  dict_getitem PLATFORM_CONFIG "TikTok" = Raise (KeyError "TikTok").
Proof.
  assert (H : ~ In "TikTok" PLATFORM_NAMES).
  { simpl. intros [H|[H|[H|[H|[H|[]]]]]]; discriminate H. }
  split; [exact H|].
  exact (proj2 (proj2 (proj2 (proj2 (proj2 PlatformCatalog_lookup_table))))
           "TikTok" H).
Defined.

(** C4. For every platform of the catalog, the model the chain is invoked
    on is built with [max_tokens = min(max_length, 1024)] and temperature
    0.7: 280 for Twitter/X, 1024 for LinkedIn. *)
Theorem outbound_call_configuration
  (w : World) (user_prompt platform : string) (rules : PlatformRules) :
  dict_get PLATFORM_CONFIG platform = Some rules ->
  let model := {| api_key := getenv w "GROQ_API_KEY";
                  model_name := "llama-3.3-70b-specdec";
                  temperature := 7 # 10;
                  max_tokens := Z.min (max_length rules) 1024 |} in
  generation_attempt w user_prompt platform =
    (_ <- ChatGroq_init w model ;;
     response <- invoke w {| chain_prompt := PROMPT; chain_model := model |}
                   [("input", PyStrV user_prompt);
                    ("tone", PyStrV (tone rules));
                    ("max_length", PyIntV (max_length rules))] ;;
     Ok (PyStr.strip response))%result /\
  (platform = "Twitter/X" -> max_tokens model = 280) /\
  (platform = "LinkedIn" -> max_tokens model = 1024) /\
  1 <= max_tokens model <= 1024.
Proof.
  intros H model. split; [|split; [|split]].
  - unfold generation_attempt, dict_getitem, new_ChatGroq. rewrite H.
    cbn [Result_bind]. change (model_args w rules) with model.
    destruct (ChatGroq_init w model); reflexivity.
  - intros ->. vm_compute in H. injection H as <-. reflexivity.
  - intros ->. vm_compute in H. injection H as <-. reflexivity.
  - assert (1 <= max_length rules).
    { revert H. unfold PLATFORM_CONFIG. cbn [dict_get].
      repeat match goal with
      | |- context [String.eqb platform ?k] =>
          destruct (String.eqb platform k);
          [intros [= <-]; cbn; lia|]
      end.
      discriminate. }
    subst model. cbn [max_tokens]. lia.
Qed.

Lemma outbound_call_configuration_witness :
  dict_get PLATFORM_CONFIG "LinkedIn"
    = Some {| max_length := 1200; tone := "professional" |} /\
  max_tokens {| api_key := getenv echo_world "GROQ_API_KEY";
                model_name := "llama-3.3-70b-specdec";
                temperature := 7 # 10;
                max_tokens := Z.min 1200 1024 |} = 1024.
Proof.
  split; [reflexivity|].
  exact (proj1 (proj2 (proj2
           (outbound_call_configuration echo_world "hello" "LinkedIn"
              {| max_length := 1200; tone := "professional" |} eq_refl)))
           eq_refl).
Defined.

(** C9. For a platform name that is not in the catalog,
    [generate_ai_response] does not raise: the [KeyError] of the lookup goes
    through the handler of the service failures, and the string returned is
    the one a service failure with the same message gives for a platform of
    the catalog. *)
Theorem unknown_platform_absorbed (w : World) (user_prompt platform : string) :
  dict_get PLATFORM_CONFIG platform = None ->
  generation_attempt w user_prompt platform = Raise (KeyError platform) /\
  generate_ai_response w user_prompt platform
    = Ok ("Error generating response: " ++ PyStr.repr platform) /\
  forall (w' : World) (known class_name : string),
    In known PLATFORM_NAMES ->
    (forall args, ChatGroq_init w' args
                  = Raise (ExternalError class_name (PyStr.repr platform))) ->
    generate_ai_response w' user_prompt known
      = generate_ai_response w user_prompt platform.
Proof.
  intros H. split; [|split].
  - unfold generation_attempt, dict_getitem. rewrite H. reflexivity.
  - rewrite generate_cases, H. reflexivity.
  - intros w' known class_name Hin Hfail.
    rewrite !generate_cases, H.
    destruct (dict_get_catalog_in known Hin) as [r ->].
    rewrite Hfail. reflexivity.
Qed.

Lemma unknown_platform_absorbed_witness :
  dict_get PLATFORM_CONFIG "TikTok" = None /\
  generate_ai_response echo_world "hello" "TikTok"
    = Ok "Error generating response: 'TikTok'".
Proof.
  split; [reflexivity|].
  exact (proj1 (proj2 (unknown_platform_absorbed echo_world "hello" "TikTok" eq_refl))).
Defined.

(** ** The blocks of [main] on a session with its keys set *)

Lemma len_cons_nonzero {A} (x : A) (l : list A) : (len (x :: l) =? 0) = false.
Proof. unfold len. apply Z.eqb_neq. simpl length. lia. Qed.

Lemma sum_fold_right (l : list Z) : sum l = fold_right Z.add 0 l.
Proof.
  unfold sum. rewrite <- fold_left_rev_right.
  rewrite <- (rev_involutive l) at 2.
  generalize (rev l) as k. intros k.
  induction k as [|x k IH]; [reflexivity|].
  cbn [rev fold_right]. rewrite fold_right_app. cbn [fold_right].
  rewrite IH. clear IH. generalize (rev k) as j. intros j.
  induction j as [|y j IH]; cbn [fold_right]; lia.
Qed.

Lemma sum_in_range (rs : list Z) :
  Forall (fun r => 1 <= r <= 5) rs -> len rs <= sum rs <= 5 * len rs.
Proof.
  rewrite sum_fold_right. unfold len.
  induction 1 as [|r rs Hr _ IH]; cbn [fold_right length]; lia.
Qed.

(** *** Rounding *)

Lemma round_half_even_close (num den : Z) :
  0 < den ->
  - den <= 2 * (PyFloat.round_half_even num den * den - num) <= den.
Proof.
  intros Hd. unfold PyFloat.round_half_even.
  pose proof (Z.div_mod num den ltac:(lia)) as E.
  pose proof (Z.mod_pos_bound num den Hd) as B.
  destruct (Z.ltb_spec (2 * (num mod den)) den);
    [|destruct (Z.ltb_spec den (2 * (num mod den)));
      [|destruct (Z.even (num / den))]]; nia.
Qed.

Lemma round_half_even_ge (num den k : Z) :
  0 < den -> k * den <= num -> k <= PyFloat.round_half_even num den.
Proof.
  intros Hd Hk. unfold PyFloat.round_half_even.
  assert (k <= num / den) by (apply Z.div_le_lower_bound; lia).
  destruct (2 * (num mod den) <? den); [lia|].
  destruct (den <? 2 * (num mod den)); [lia|].
  destruct (Z.even (num / den)); lia.
Qed.

Lemma round_half_even_le (num den k : Z) :
  0 < den -> num <= k * den -> PyFloat.round_half_even num den <= k.
Proof.
  intros Hd Hk. unfold PyFloat.round_half_even.
  pose proof (Z.div_mod num den ltac:(lia)) as E.
  pose proof (Z.mod_pos_bound num den Hd) as B.
  assert (num / den < k \/ (num / den = k /\ num mod den = 0)) as [H|[H H0]] by nia.
  - destruct (2 * (num mod den) <? den); [lia|].
    destruct (den <? 2 * (num mod den)); [lia|].
    destruct (Z.even (num / den)); lia.
  - rewrite H0. destruct (Z.ltb_spec (2 * 0) den); lia.
Qed.

Lemma floor_log2_le (a b : Z) :
  0 < a -> 0 < b -> a <= 5 * b -> PyFloat.floor_log2 a b <= 2.
Proof.
  intros Ha Hb Hab. unfold PyFloat.floor_log2.
  pose proof (Z.log2_spec a Ha) as [La Ua].
  pose proof (Z.log2_spec b Hb) as [Lb Ub].
  pose proof (Z.log2_nonneg a) as Na. pose proof (Z.log2_nonneg b) as Nb.
  set (la := Z.log2 a) in *. set (lb := Z.log2 b) in *.
  destruct (Z.leb_spec (b * 2 ^ Z.max 0 (la - lb)) (a * 2 ^ Z.max 0 (- (la - lb))))
    as [H|H].
  - destruct (Z.le_gt_cases (la - lb) 2) as [|Hk]; [assumption|exfalso].
    rewrite Z.max_r in H by lia. rewrite (Z.max_l 0 (- (la - lb))) in H by lia.
    assert (2 ^ 3 <= 2 ^ (la - lb)) by (apply Z.pow_le_mono_r; lia).
    change (2 ^ 3) with 8 in *. change (2 ^ 0) with 1 in H. nia.
  - destruct (Z.le_gt_cases (la - lb) 3) as [|Hk]; [lia|exfalso].
    assert (E : 2 ^ la = 2 ^ lb * 2 ^ (la - lb)).
    { rewrite <- Z.pow_add_r by lia. f_equal. lia. }
    assert (2 ^ 4 <= 2 ^ (la - lb)) by (apply Z.pow_le_mono_r; lia).
    change (2 ^ 4) with 16 in *.
    rewrite Z.pow_succ_r in Ub by lia.
    assert (0 < 2 ^ lb) by (apply Z.pow_pos_nonneg; lia).
    nia.
Qed.

(** Between 1 and 5 the quotient needs no exponent above -50 and is rounded
    on the grid of its exponent. *)
Lemma nearest_in_range (a b : Z) :
  0 < b -> b <= a <= 5 * b ->
  exists e,
    PyFloat.nearest a b = (PyFloat.round_half_even (a * 2 ^ (- e)) b, e) /\
    -1074 <= e <= -50.
Proof.
  intros Hb [Hlo Hhi]. unfold PyFloat.nearest.
  pose proof (floor_log2_le a b ltac:(lia) Hb Hhi) as Hfl.
  set (e := Z.max (PyFloat.floor_log2 a b - 52) (-1074)).
  assert (He : -1074 <= e <= -50) by (unfold e; lia).
  exists e. split; [|exact He].
  rewrite (Z.max_r 0 (- e)) by lia. rewrite (Z.max_l 0 e) by lia.
  change (2 ^ 0) with 1. rewrite Z.mul_1_r. reflexivity.
Qed.

Lemma truediv_in_range (a b : Z) :
  0 < b -> b <= a <= 5 * b ->
  exists m e,
    truediv a b
    = Ok {| PyFloat.negative := false; PyFloat.mantissa := m; PyFloat.exponent := e |} /\
    -1074 <= e <= -50 /\
    m = PyFloat.round_half_even (a * 2 ^ (- e)) b.
Proof.
  intros Hb Hab. destruct (nearest_in_range a b Hb Hab) as (e & Hn & He).
  exists (PyFloat.round_half_even (a * 2 ^ (- e)) b), e.
  split; [|split; [exact He|reflexivity]].
  unfold truediv, PyFloat.div.
  destruct (Z.eqb_spec b 0) as [->|_]; [lia|].
  destruct (Z.eqb_spec a 0) as [->|_]; [lia|].
  rewrite (Z.abs_eq a), (Z.abs_eq b) by lia. rewrite Hn.
  unfold PyFloat.overflows. destruct (Z.leb_spec 0 e); [lia|]. cbn [andb].
  destruct (Z.ltb_spec a 0); [lia|]. destruct (Z.ltb_spec b 0); [lia|].
  reflexivity.
Qed.

Lemma Qfrac_dist (x y : Z) (p q k : positive) :
  Z.pos k * Z.abs (x * Z.pos q - y * Z.pos p) <= Z.pos p * Z.pos q ->
  (Qabs ((x # p) - (y # q)) <= 1 # k)%Q.
Proof.
  intros H. apply Qabs_Qle_condition.
  unfold Qle, Qminus, Qplus, Qopp. cbn [Qnum Qden].
  rewrite !Pos2Z.inj_mul. split; nia.
Qed.

Lemma value_in_range (m e : Z) :
  e < 0 ->
  PyFloat.value {| PyFloat.negative := false; PyFloat.mantissa := m;
                   PyFloat.exponent := e |}
  = m # Z.to_pos (2 ^ (- e)).
Proof.
  intros He. unfold PyFloat.value. cbn [PyFloat.negative PyFloat.mantissa PyFloat.exponent].
  destruct (Z.leb_spec 0 e); [lia|reflexivity].
Qed.

Lemma value_close (a b m e : Z) :
  0 < b -> -1074 <= e <= -50 ->
  m = PyFloat.round_half_even (a * 2 ^ (- e)) b ->
  (Qabs (PyFloat.value {| PyFloat.negative := false; PyFloat.mantissa := m;
                          PyFloat.exponent := e |}
         - inject_Z a / inject_Z b) <= 1 # two_to_51)%Q.
Proof.
  intros Hb He Hm. rewrite value_in_range by lia.
  destruct b as [|pb|pb]; try lia.
  rewrite <- Qmake_Qdiv. apply Qfrac_dist.
  pose proof (round_half_even_close (a * 2 ^ (- e)) (Z.pos pb) Hb) as Hc.
  rewrite <- Hm in Hc.
  assert (Hpow : 2 ^ 50 <= 2 ^ (- e)) by (apply Z.pow_le_mono_r; lia).
  rewrite Z2Pos.id by lia.
  change (Z.pos two_to_51) with (2 * 2 ^ 50).
  set (K := 2 ^ 50) in *. set (D := 2 ^ (- e)) in *.
  assert (0 < K) by (unfold K; lia).
  nia.
Qed.

Lemma tenths_in_range (m e : Z) :
  e < 0 ->
  PyFloat.tenths {| PyFloat.negative := false; PyFloat.mantissa := m;
                    PyFloat.exponent := e |}
  = PyFloat.round_half_even (10 * m) (2 ^ (- e)).
Proof.
  intros He. unfold PyFloat.tenths. cbn [PyFloat.mantissa PyFloat.exponent].
  rewrite (Z.max_l 0 e), (Z.max_r 0 (- e)) by lia.
  change (2 ^ 0) with 1. now rewrite Z.mul_1_r.
Qed.

Lemma tenths_close (m e : Z) :
  e < 0 -> 0 <= m ->
  (Qabs ((PyFloat.tenths {| PyFloat.negative := false; PyFloat.mantissa := m;
                            PyFloat.exponent := e |} # 10)
         - PyFloat.value {| PyFloat.negative := false; PyFloat.mantissa := m;
                            PyFloat.exponent := e |}) <= 1 # 20)%Q.
Proof.
  intros He Hm. rewrite value_in_range, tenths_in_range by lia.
  apply Qfrac_dist.
  assert (Hpos : 0 < 2 ^ (- e)) by (apply Z.pow_pos_nonneg; lia).
  pose proof (round_half_even_close (10 * m) (2 ^ (- e)) Hpos) as Hc.
  rewrite Z2Pos.id by lia. lia.
Qed.

Lemma mantissa_range (a b e : Z) :
  0 < b -> b <= a <= 5 * b -> e < 0 ->
  2 ^ (- e) <= PyFloat.round_half_even (a * 2 ^ (- e)) b <= 5 * 2 ^ (- e).
Proof.
  intros Hb Hab He.
  assert (Hpos : 0 < 2 ^ (- e)) by (apply Z.pow_pos_nonneg; lia).
  split.
  - apply round_half_even_ge; [exact Hb|nia].
  - apply round_half_even_le; [exact Hb|nia].
Qed.

Lemma tenths_range (a b m e : Z) :
  0 < b -> b <= a <= 5 * b -> -1074 <= e <= -50 ->
  m = PyFloat.round_half_even (a * 2 ^ (- e)) b ->
  10 <= PyFloat.tenths {| PyFloat.negative := false; PyFloat.mantissa := m;
                          PyFloat.exponent := e |} <= 50.
Proof.
  intros Hb Hab He ->. rewrite tenths_in_range by lia.
  pose proof (mantissa_range a b e Hb Hab ltac:(lia)) as [Hlo Hhi].
  assert (Hpos : 0 < 2 ^ (- e)) by (apply Z.pow_pos_nonneg; lia).
  split.
  - apply round_half_even_ge; [exact Hpos|nia].
  - apply round_half_even_le; [exact Hpos|nia].
Qed.

(** *** [display_analytics] *)

Lemma len_positive {A} (x : A) (l : list A) : 0 < len (x :: l).
Proof. unfold len. cbn [length]. lia. Qed.

Lemma average_in_range (rs : list Z) :
  rs <> [] -> Forall (fun r => 1 <= r <= 5) rs ->
  exists m e,
    truediv (sum rs) (len rs)
    = Ok {| PyFloat.negative := false; PyFloat.mantissa := m; PyFloat.exponent := e |} /\
    -1074 <= e <= -50 /\
    m = PyFloat.round_half_even (sum rs * 2 ^ (- e)) (len rs).
Proof.
  intros Hne Hrange. destruct rs as [|r rs']; [contradiction|].
  apply truediv_in_range; [apply len_positive|].
  pose proof (sum_in_range _ Hrange). lia.
Qed.

Lemma display_analytics_run (s : SessionState) (ms : list Message) (rs : list Z) :
  messages s = Some ms -> ratings s = Some rs ->
  display_analytics s = (analytics_of ms rs, s).
Proof.
  intros Hm Hr.
  cbv [display_analytics bind getattr lift ret analytics_of].
  rewrite Hm. cbv beta iota zeta.
  destruct rs as [|r rs'];
    repeat (rewrite Hr; cbv beta iota zeta; cbn [list_truthy]);
    [reflexivity|].
  destruct (truediv (sum (r :: rs')) (len (r :: rs'))); reflexivity.
Qed.

Lemma truediv_no_zero_division (a b : Z) (m : string) :
  b <> 0 -> truediv a b <> Raise (ZeroDivisionError m).
Proof.
  intros Hb. unfold truediv. destruct (Z.eqb_spec b 0); [contradiction|].
  destruct (PyFloat.div a b); discriminate.
Qed.

Lemma display_analytics_no_zero_division (s : SessionState) (m : string) :
  fst (display_analytics s) <> Raise (ZeroDivisionError m).
Proof.
  destruct (messages s) as [ms|] eqn:Hm.
  - destruct (ratings s) as [rs|] eqn:Hr.
    + rewrite (display_analytics_run s ms rs Hm Hr). cbn [fst].
      unfold analytics_of. destruct rs as [|r rs']; [discriminate|].
      pose proof (truediv_no_zero_division (sum (r :: rs')) (len (r :: rs')) m) as H.
      destruct (truediv (sum (r :: rs')) (len (r :: rs'))); [discriminate|].
      intros [= ->]. apply H; [|reflexivity].
      pose proof (len_positive r rs'). lia.
    + cbv [display_analytics bind getattr]. rewrite Hm. cbv beta iota zeta.
      rewrite Hr. discriminate.
  - cbv [display_analytics bind getattr]. rewrite Hm. discriminate.
Qed.

Lemma analytics_in_range (ms : list Message) (rs : list Z) :
  Forall (fun r => 1 <= r <= 5) rs ->
  analytics_of ms rs = Ok (metrics_of ms rs).
Proof.
  intros Hrange. unfold metrics_of.
  destruct rs as [|r rs']; [reflexivity|].
  destruct (average_in_range (r :: rs') ltac:(discriminate) Hrange)
    as (m & e & E & _).
  unfold analytics_of. rewrite E. reflexivity.
Qed.

Lemma display_analytics_session
  (ms : list Message) (p : string) (rs : list Z) (rr : option (option Z)) :
  Forall (fun r => 1 <= r <= 5) rs ->
  display_analytics (session ms p rs rr) = (Ok (metrics_of ms rs), session ms p rs rr).
Proof.
  intros Hrange.
  rewrite (display_analytics_run (session ms p rs rr) ms rs eq_refl eq_refl).
  now rewrite analytics_in_range.
Qed.

Lemma bind_Ok {A B} {c : M A} (k : A -> M B) {s s' : SessionState} {a : A} :
  c s = (Ok a, s') -> bind c k s = k a s'.
Proof. intros H. unfold bind. rewrite H. reflexivity. Qed.

Section Blocks.

Variables (io : Run) (ms : list Message) (p : string) (rs : list Z)
  (rr : option (option Z)).

Lemma module_init_fresh :
  module_init fresh_session = (Ok tt, session [] "General" [] None).
Proof. reflexivity. Qed.

Lemma module_init_session :
  module_init (session ms p rs rr) = (Ok tt, session ms p rs rr).
Proof. reflexivity. Qed.

Lemma selectbox_platform :
  In p PLATFORM_NAMES ->
  exists index p',
    list_index (dict_keys PLATFORM_CONFIG) p = Ok index /\
    st_selectbox (dict_keys PLATFORM_CONFIG) index (platform_choice io) = Ok p' /\
    In p' PLATFORM_NAMES.
Proof.
  intros H.
  assert (Hi : exists index q, list_index (dict_keys PLATFORM_CONFIG) p = Ok index
                 /\ nth_error PLATFORM_NAMES index = Some q).
  { simpl in H.
    repeat (destruct H as [<-|H]; [eexists; eexists; split; reflexivity|]).
    contradiction. }
  destruct Hi as (index & q & Hidx & Hq).
  exists index.
  assert (Hsel : forall o, 
             match platform_choice io with
             | Some i => match nth_error PLATFORM_NAMES i with
                         | Some o' => o'
                         | None => q
                         end
             | None => q
             end = o ->
             st_selectbox (dict_keys PLATFORM_CONFIG) index (platform_choice io) = Ok o).
  { intros o <-. unfold st_selectbox. rewrite catalog_keys, Hq. reflexivity. }
  destruct (platform_choice io) as [i|].
  - destruct (nth_error PLATFORM_NAMES i) as [o|] eqn:Ho.
    + exists o. eauto using nth_error_In.
    + exists q. eauto using nth_error_In.
  - exists q. eauto using nth_error_In.
Qed.

Lemma sidebar_session :
  In p PLATFORM_NAMES ->
  Forall (fun r => 1 <= r <= 5) rs ->
  exists metrics p',
    sidebar io (session ms p rs rr) = (Ok metrics, session ms p' rs rr) /\
    In p' PLATFORM_NAMES.
Proof.
  intros H Hrange.
  destruct (selectbox_platform H) as (index & p' & Hidx & Hsel & Hin).
  eexists; exists p'. split; [|exact Hin].
  unfold sidebar, bind, getattr, lift, set_selected_platform.
  cbn [session selected_platform messages ratings rate_response].
  rewrite Hidx, Hsel. cbn [st_selectbox TONE_OPTIONS nth_error].
  apply (display_analytics_session ms p' rs rr Hrange).
Qed.

(** The radio offers 1..5 and nothing else. *)
Lemma st_radio_range (choice : option nat) :
  match st_radio RATING_OPTIONS choice with
  | Some v => 1 <= v <= 5
  | None => True
  end.
Proof.
  destruct choice as [[|[|[|[|[|n]]]]]|]; cbn; try lia; try exact I.
  destruct n; exact I.
Qed.

Lemma handle_submission_session (prompt : string) :
  exists text,
    generate_ai_response (world io) prompt p = Ok text /\
    handle_submission io prompt (session ms p rs rr) =
    (Ok (exchange_blocks io p prompt text,
         thanks (st_radio RATING_OPTIONS (rating_choice io))),
     session (ms ++ [user_message io p prompt; assistant_message io p text]) p
       (rated rs (st_radio RATING_OPTIONS (rating_choice io)))
       (Some (st_radio RATING_OPTIONS (rating_choice io)))).
Proof.
  destruct (generate_returns (world io) prompt p) as [text Hgen].
  exists text. split; [exact Hgen|].
  cbv [handle_submission bind getattr lift append_message set_messages
       setdefault set_rate_response session
       selected_platform messages ratings rate_response].
  rewrite Hgen. rewrite <- app_assoc. cbn [app].
  pose proof (st_radio_range (rating_choice io)) as Hr.
  destruct (st_radio RATING_OPTIONS (rating_choice io)) as [v|];
    destruct rr;
    cbv [append_rating rating_truthy rated user_message assistant_message
         exchange_blocks chat_block thanks bind getattr set_ratings ret
         role content platform time
         selected_platform messages ratings rate_response];
    try reflexivity.
  all: destruct (Z.eqb_spec v 0) as [->|_]; [lia|reflexivity].
Qed.

End Blocks.

Section Runs.

Variables (io : Run) (ms : list Message) (p : string) (rs : list Z)
  (rr : option (option Z)).

Lemma submission_block_session :
  match handled io with
  | None =>
      submission_block io (session ms p rs rr)
      = (Ok ([], None), session ms p rs rr)
  | Some prompt =>
      exists text,
        generate_ai_response (world io) prompt p = Ok text /\
        submission_block io (session ms p rs rr) =
        (Ok (exchange_blocks io p prompt text,
             thanks (st_radio RATING_OPTIONS (rating_choice io))),
         session (ms ++ [user_message io p prompt; assistant_message io p text]) p
           (rated rs (st_radio RATING_OPTIONS (rating_choice io)))
           (Some (st_radio RATING_OPTIONS (rating_choice io))))
  end.
Proof.
  unfold handled, submission_block.
  destruct (chat_input io) as [prompt|]; [|reflexivity].
  destruct (PyStr.truthy prompt); [|reflexivity].
  apply handle_submission_session.
Qed.

Lemma reset_block_session :
  reset_block io (session ms p rs rr) =
  (Ok (list_truthy ms && clear_clicked io)%bool,
   if (list_truthy ms && clear_clicked io)%bool
   then session [] p [] rr else session ms p rs rr).
Proof.
  unfold reset_block, bind, getattr, session. cbn [messages].
  destruct ms; [reflexivity|]. cbn [list_truthy andb].
  destruct (clear_clicked io); reflexivity.
Qed.

End Runs.

(** One run, from the state the module-level statements leave: it does not
    raise, and its final state is the one the submission block leaves,
    cleared when the button was offered and clicked. *)
Lemma script_session (io : Run) (s : SessionState) (ms : list Message)
  (p : string) (rs : list Z) (rr : option (option Z)) :
  module_init s = (Ok tt, session ms p rs rr) ->
  In p PLATFORM_NAMES ->
  Forall (fun r => 1 <= r <= 5) rs ->
  exists page p' shown ms1 rs1 rr1,
    In p' PLATFORM_NAMES /\
    submission_block io (session ms p' rs rr) = (Ok shown, session ms1 p' rs1 rr1) /\
    script io s =
    (Ok page,
     if (list_truthy ms1 && clear_clicked io)%bool
     then session [] p' [] rr1 else session ms1 p' rs1 rr1).
Proof.
  intros Hinit H Hrange.
  destruct (sidebar_session io ms p rs rr H Hrange) as (metrics & p' & Hside & Hin).
  pose proof (submission_block_session io ms p' rs rr) as Hsub.
  assert (Hs : exists shown ms1 rs1 rr1,
             submission_block io (session ms p' rs rr)
             = (Ok shown, session ms1 p' rs1 rr1)).
  { destruct (handled io); [destruct Hsub as (text & _ & ->)|rewrite Hsub];
      eauto 6. }
  destruct Hs as (shown & ms1 & rs1 & rr1 & Hs).
  eexists; exists p', shown, ms1, rs1, rr1. split; [exact Hin|]. split; [exact Hs|].
  unfold script, main.
  rewrite (bind_Ok _ Hinit).
  rewrite (bind_Ok _ Hside).
  erewrite bind_Ok by reflexivity.
  erewrite bind_Ok by reflexivity.
  rewrite (bind_Ok _ Hs).
  rewrite (bind_Ok _ (reset_block_session io ms1 p' rs1 rr1)).
  reflexivity.
Qed.

Lemma alternates_app (b : bool) (l1 l2 : list Message) :
  alternates b (l1 ++ l2) =
  (alternates b l1 && alternates (if Nat.even (length l1) then b else negb b) l2)%bool.
Proof.
  revert b. induction l1 as [|m l1 IH]; intros b.
  - reflexivity.
  - cbn [app alternates length]. rewrite IH, <- andb_assoc. f_equal. f_equal.
    rewrite Nat.even_succ, <- Nat.negb_even.
    destruct (Nat.even (length l1)), b; reflexivity.
Qed.

Lemma consistent_submission (io : Run) (ms : list Message) (p p' : string)
  (rs : list Z) (prompt text : string) :
  In p' PLATFORM_NAMES ->
  consistent ms p rs ->
  consistent (ms ++ [user_message io p' prompt; assistant_message io p' text]) p'
    (rated rs (st_radio RATING_OPTIONS (rating_choice io))).
Proof.
  intros Hin [_ Halt Hpair _ Hrange]. constructor.
  - exact Hin.
  - rewrite alternates_app, Halt, Hpair. reflexivity.
  - rewrite length_app, Nat.even_add, Hpair. reflexivity.
  - intros Hnil. destruct ms; discriminate Hnil.
  - pose proof (st_radio_range (rating_choice io)) as Hr.
    destruct (st_radio RATING_OPTIONS (rating_choice io)) as [v|]; cbn [rated].
    + apply Forall_app. split; [exact Hrange|]. constructor; [exact Hr|constructor].
    + exact Hrange.
Qed.

Lemma consistent_platform (ms : list Message) (p p' : string) (rs : list Z) :
  In p' PLATFORM_NAMES -> consistent ms p rs -> consistent ms p' rs.
Proof. intros Hin [? ? ? ? ?]. constructor; assumption. Qed.

Lemma consistent_empty (p : string) :
  In p PLATFORM_NAMES -> consistent [] p [].
Proof. intros H. constructor; auto. Qed.

(** The module-level statements set the missing keys and change nothing
    else. *)
Lemma invariant_init (s : SessionState) :
  invariant s ->
  exists ms p rs rr,
    module_init s = (Ok tt, session ms p rs rr) /\
    consistent ms p rs /\ snapshot s = (ms, rs).
Proof.
  intros [->|(ms & p & rs & rr & -> & Hc)].
  - exists [], "General", [], None.
    split; [reflexivity|]. split; [|reflexivity].
    apply consistent_empty. simpl. tauto.
  - exists ms, p, rs, rr.
    split; [reflexivity|]. split; [exact Hc|reflexivity].
Qed.

(** A run keeps the invariant and does not raise; after a click on the
    button no message is left. *)
Lemma script_invariant (io : Run) (s : SessionState) :
  invariant s ->
  exists page ms p rs rr,
    script io s = (Ok page, session ms p rs rr) /\ consistent ms p rs /\
    (clear_clicked io = true -> ms = []).
Proof.
  intros Hinv.
  destruct (invariant_init s Hinv) as (ms & p & rs & rr & Hinit & Hc & _).
  destruct (script_session io s ms p rs rr Hinit (platform_known _ _ _ Hc)
                (ratings_in_range _ _ _ Hc))
    as (page & p' & shown & ms1 & rs1 & rr1 & Hin & Hsub & Hrun).
  assert (Hc1 : consistent ms1 p' rs1).
  { pose proof (submission_block_session io ms p' rs rr) as Hb.
    destruct (handled io) as [prompt|].
    - destruct Hb as (text & _ & Hb). rewrite Hb in Hsub.
      injection Hsub as <- <- <- <-. now apply consistent_submission with p.
    - rewrite Hb in Hsub. injection Hsub as <- <- <- <-.
      now apply consistent_platform with p. }
  exists page.
  destruct (list_truthy ms1 && clear_clicked io)%bool eqn:Hclear.
  - exists [], p', [], rr1.
    split; [exact Hrun|]. split; [now apply consistent_empty|reflexivity].
  - exists ms1, p', rs1, rr1.
    split; [exact Hrun|]. split; [exact Hc1|].
    intros Hclick. rewrite Hclick in Hclear. destruct ms1; [reflexivity|discriminate].
Qed.

Lemma reachable_invariant (s : SessionState) : reachable s -> invariant s.
Proof.
  induction 1 as [|s io _ IH].
  - left. reflexivity.
  - destruct (script_invariant io s IH) as (page & ms & p & rs & rr & E & Hc & _).
    rewrite E. right. exists ms, p, rs, rr. split; [reflexivity|exact Hc].
Qed.

(** ** ConversationStore *)

(** C5 as stated fails: for the ratings 1, 2, 2 the average computed is
    not the mean 5/3 but the float nearest to it, and the metric shows it
    as 1.7. *)
Lemma average_of_1_2_2_is_rounded :
  ratings thrice_rated_session = Some [1; 2; 2] /\
  (exists avg,
      truediv (sum [1; 2; 2]) (len [1; 2; 2]) = Ok avg /\
      ~ (PyFloat.value avg == arithmetic_mean [1%Z; 2%Z; 2%Z])%Q) /\
  fst (display_analytics thrice_rated_session)
  = Ok [("Total Interactions", MetricInt 6); ("Average Rating", MetricStars "1.7")].
Proof.
  split; [reflexivity|]. split; [|vm_compute; reflexivity].
  eexists. split; [vm_compute; reflexivity|].
  intros H. vm_compute in H. discriminate H.
Qed.

(** C5, as the code has it.  For ratings in 1..5 the metric shows the
    float nearest their arithmetic mean (within 2^-51 of it) to one
    decimal (within 0.05 of the float, between 1.0 and 5.0): 4.0 for
    [4,5,3].  With no ratings it shows "N/A" and no division takes place;
    [display_analytics] never raises [ZeroDivisionError]. *)
Theorem average_rating_metric :
  (forall (s : SessionState) (ms : list Message) (rs : list Z),
      messages s = Some ms -> ratings s = Some rs ->
      rs <> [] -> Forall (fun r => 1 <= r <= 5) rs ->
      exists avg,
        display_analytics s =
          (Ok [("Total Interactions", MetricInt (len ms));
               ("Average Rating", MetricStars (PyFloat.format_1f avg))], s) /\
        truediv (sum rs) (len rs) = Ok avg /\
        (Qabs (PyFloat.value avg - arithmetic_mean rs) <= 1 # two_to_51)%Q /\
        (Qabs ((PyFloat.tenths avg # 10) - PyFloat.value avg) <= 1 # 20)%Q /\
        10 <= PyFloat.tenths avg <= 50 /\
        PyFloat.format_1f avg
        = PyFloat.decimal (PyFloat.tenths avg / 10) ++ "." ++
          PyFloat.decimal (PyFloat.tenths avg mod 10)) /\
  (forall (s : SessionState) (ms : list Message),
      messages s = Some ms -> ratings s = Some [4; 5; 3] ->
      display_analytics s =
        (Ok [("Total Interactions", MetricInt (len ms));
             ("Average Rating", MetricStars "4.0")], s)) /\
  (forall (s : SessionState) (ms : list Message),
      messages s = Some ms -> ratings s = Some [] ->
      display_analytics s =
        (Ok [("Total Interactions", MetricInt (len ms));
             ("Average Rating", MetricStr "N/A")], s)) /\
  (forall (s : SessionState) (m : string),
      fst (display_analytics s) <> Raise (ZeroDivisionError m)).
Proof.
  split; [|split; [|split]].
  - intros s ms rs Hm Hr Hne Hrange.
    destruct (average_in_range rs Hne Hrange) as (m & e & E & He & Hmant).
    eexists. split; [|split; [exact E|]].
    + rewrite (display_analytics_run s ms rs Hm Hr). unfold analytics_of.
      rewrite E. destruct rs; [contradiction|reflexivity].
    + destruct rs as [|r rs']; [contradiction|].
      pose proof (sum_in_range _ Hrange) as Hsum.
      pose proof (len_positive r rs') as Hlen.
      split; [|split; [|split]].
      * unfold arithmetic_mean. rewrite <- sum_fold_right.
        exact (value_close (sum (r :: rs')) (len (r :: rs')) m e Hlen He Hmant).
      * apply tenths_close; [lia|].
        subst m. apply round_half_even_ge with (k := 0); [exact Hlen|].
        pose proof (Z.pow_pos_nonneg 2 (- e)). nia.
      * apply tenths_range with (sum (r :: rs')) (len (r :: rs')); auto; lia.
      * reflexivity.
  - intros s ms Hm Hr. now rewrite (display_analytics_run s ms _ Hm Hr).
  - intros s ms Hm Hr. now rewrite (display_analytics_run s ms _ Hm Hr).
  - intros s m. apply display_analytics_no_zero_division.
Qed.

Lemma average_rating_metric_witness :
  messages thrice_rated_session <> None /\
  ratings thrice_rated_session = Some [1; 2; 2] /\
  exists avg,
    fst (display_analytics thrice_rated_session) =
      Ok [("Total Interactions", MetricInt 6);
          ("Average Rating", MetricStars (PyFloat.format_1f avg))] /\
    (Qabs (PyFloat.value avg - arithmetic_mean [1%Z; 2%Z; 2%Z]) <= 1 # two_to_51)%Q.
Proof.
  split; [discriminate|]. split; [reflexivity|].
  assert (Hrange : Forall (fun r => 1 <= r <= 5) [1; 2; 2])
    by (repeat constructor; lia).
  destruct (proj1 average_rating_metric thrice_rated_session _ [1; 2; 2]
              eq_refl eq_refl ltac:(discriminate) Hrange)
    as (avg & E & _ & Hclose & _).
  exists avg. split; [rewrite E; reflexivity|exact Hclose].
Defined.

(** C6. Whatever the messages and ratings were, [reset] leaves both empty;
    and a run of a session in which the button is clicked ends with a
    snapshot of two empty sequences. *)
Theorem reset_clears_both :
  (forall s : SessionState,
      fst (reset s) = Ok tt /\
      messages (snd (reset s)) = Some [] /\
      ratings (snd (reset s)) = Some [] /\
      snapshot (snd (reset s)) = ([], [])) /\
  (forall (io : Run) (s : SessionState),
      reachable s -> clear_clicked io = true ->
      exists page,
        fst (script io s) = Ok page /\
        snapshot (snd (script io s)) = ([], [])).
Proof.
  split.
  - intros s. repeat split.
  - intros io s Hs Hclick.
    destruct (script_invariant io s (reachable_invariant s Hs))
      as (page & ms & p & rs & rr & E & Hc & Hnil).
    exists page. rewrite E. split; [reflexivity|].
    pose proof (Hnil Hclick) as ->.
    rewrite (ratings_need_messages _ _ _ Hc eq_refl). reflexivity.
Qed.

Lemma reset_clears_both_witness :
  reachable rated_session /\
  clear_clicked (submit echo_world "Second post" None true) = true /\
  snapshot (snd (script (submit echo_world "Second post" None true) rated_session))
    = ([], []).
Proof.
  assert (H : reachable rated_session)
    by exact (reachable_run fresh_session _ reachable_fresh).
  split; [exact H|]. split; [reflexivity|].
  destruct (proj2 reset_clears_both (submit echo_world "Second post" None true)
              rated_session H eq_refl) as (page & _ & E).
  exact E.
Defined.

(** C8. A handled submission appends two messages, the user's text as it
    was typed and then the string [generate_ai_response] returned, both on
    the selected platform; so between runs the roles alternate from "user"
    and the messages are even in number. *)
Theorem submission_appends_two_messages :
  (forall (io : Run) (ms : list Message) (p : string) (rs : list Z)
          (rr : option (option Z)) (prompt : string),
      handled io = Some prompt ->
      exists text,
        generate_ai_response (world io) prompt p = Ok text /\
        fst (submission_block io (session ms p rs rr))
          = Ok (exchange_blocks io p prompt text,
                thanks (st_radio RATING_OPTIONS (rating_choice io))) /\
        selected_platform (snd (submission_block io (session ms p rs rr))) = Some p /\
        messages (snd (submission_block io (session ms p rs rr))) =
          Some (ms ++ [{| role := "user"; content := prompt; platform := p;
                          time := strftime_HMS (now_user io) |};
                       {| role := "assistant"; content := text; platform := p;
                          time := strftime_HMS (now_ai io) |}])%list) /\
  (forall s : SessionState,
      reachable s ->
      alternates true (fst (snapshot s)) = true /\
      Nat.even (length (fst (snapshot s))) = true) /\
  (forall (io : Run) (s : SessionState) (prompt : string),
      reachable s -> handled io = Some prompt -> clear_clicked io = false ->
      exists p text,
        selected_platform (snd (script io s)) = Some p /\
        generate_ai_response (world io) prompt p = Ok text /\
        fst (snapshot (snd (script io s))) =
          (fst (snapshot s) ++ [user_message io p prompt; assistant_message io p text])%list).
Proof.
  split; [|split].
  - intros io ms p rs rr prompt Hh.
    pose proof (submission_block_session io ms p rs rr) as Hb. rewrite Hh in Hb.
    destruct Hb as (text & Hgen & ->). exists text. repeat split. exact Hgen.
  - intros s Hs.
    destruct (reachable_invariant s Hs) as [->|(ms & p & rs & rr & -> & Hc)].
    + split; reflexivity.
    + split; [exact (turns_alternate _ _ _ Hc)|exact (turns_paired _ _ _ Hc)].
  - intros io s prompt Hs Hh Hclick.
    destruct (invariant_init s (reachable_invariant s Hs))
      as (ms & p & rs & rr & Hinit & Hc & Hsnap).
    destruct (script_session io s ms p rs rr Hinit (platform_known _ _ _ Hc)
                (ratings_in_range _ _ _ Hc))
      as (page & p' & shown & ms1 & rs1 & rr1 & Hin & Hsub & Hrun).
    pose proof (submission_block_session io ms p' rs rr) as Hb. rewrite Hh in Hb.
    destruct Hb as (text & Hgen & Hb). rewrite Hb in Hsub.
    injection Hsub as <- <- <- <-.
    exists p', text. rewrite Hrun, Hclick, andb_false_r, Hsnap.
    repeat split. exact Hgen.
Qed.

Lemma submission_appends_two_messages_witness :
  handled (submit silent_world "Announce our new product launch" None false)
    = Some "Announce our new product launch" /\
  messages (snd (submission_block
                   (submit silent_world "Announce our new product launch" None false)
                   (session [] "Twitter/X" [] None))) =
  Some [{| role := "user"; content := "Announce our new product launch";
           platform := "Twitter/X"; time := "12:00:07" |};
        {| role := "assistant";
           content := "Error generating response: The api_key client option must be set";
           platform := "Twitter/X"; time := "12:00:07" |}].
Proof.
  split; [reflexivity|].
  destruct (proj1 submission_appends_two_messages
              (submit silent_world "Announce our new product launch" None false)
              [] "Twitter/X" [] None "Announce our new product launch" eq_refl)
    as (text & Hgen & _ & _ & E).
  rewrite E. vm_compute in Hgen. injection Hgen as <-. reflexivity.
Defined.

(** C10. In every state a session reaches, no messages means no ratings; a
    run that handles no submission leaves the ratings as they were or
    clears both sequences. *)
Theorem no_rating_without_message (s : SessionState) :
  reachable s ->
  (fst (snapshot s) = [] -> snd (snapshot s) = []) /\
  (messages s = Some [] -> ratings s = Some []) /\
  (forall io : Run,
      handled io = None ->
      snd (snapshot (snd (script io s))) = snd (snapshot s) \/
      snapshot (snd (script io s)) = ([], [])).
Proof.
  intros Hs. pose proof (reachable_invariant s Hs) as Hinv.
  split; [|split].
  - destruct Hinv as [->|(ms & p & rs & rr & -> & Hc)]; [reflexivity|].
    exact (ratings_need_messages _ _ _ Hc).
  - destruct Hinv as [->|(ms & p & rs & rr & -> & Hc)]; [discriminate|].
    cbn. intros [= ->]. now rewrite (ratings_need_messages _ _ _ Hc).
  - intros io Hh.
    destruct (invariant_init s Hinv) as (ms & p & rs & rr & Hinit & Hc & Hsnap).
    destruct (script_session io s ms p rs rr Hinit (platform_known _ _ _ Hc)
                (ratings_in_range _ _ _ Hc))
      as (page & p' & shown & ms1 & rs1 & rr1 & Hin & Hsub & Hrun).
    pose proof (submission_block_session io ms p' rs rr) as Hb. rewrite Hh in Hb.
    rewrite Hb in Hsub. injection Hsub as <- <- <- <-.
    rewrite Hrun, Hsnap.
    destruct (list_truthy ms && clear_clicked io)%bool; [right|left]; reflexivity.
Qed.

Lemma no_rating_without_message_witness :
  reachable (snd (script (submit echo_world "Second post" None true) rated_session)) /\
  fst (snapshot (snd (script (submit echo_world "Second post" None true) rated_session))) = [] /\
  snd (snapshot (snd (script (submit echo_world "Second post" None true) rated_session))) = [].
Proof.
  assert (H : reachable (snd (script (submit echo_world "Second post" None true)
                                 rated_session))).
  { apply reachable_run. exact (reachable_run fresh_session _ reachable_fresh). }
  split; [exact H|]. split; [reflexivity|].
  exact (proj1 (no_rating_without_message _ H) eq_refl).
Defined.

(** C7. When the key is absent from the environment or refused, the first
    run of the script does not raise; the failure shows when
    [generate_ai_response] is called, as its "Error generating response: "
    string, which becomes the assistant's message. *)
Theorem missing_api_key_fails_soft (w : World) (e : Exception) :
  key_rejected w e ->
  (forall io : Run,
      world io = w -> handled io = None ->
      exists page p, script io fresh_session = (Ok page, session [] p [] None)) /\
  (forall user_prompt platform : string,
      In platform PLATFORM_NAMES ->
      generate_ai_response w user_prompt platform
        = Ok ("Error generating response: " ++ str_of_exception e)) /\
  (forall (io : Run) (prompt : string),
      world io = w -> handled io = Some prompt -> clear_clicked io = false ->
      exists page p,
        fst (script io fresh_session) = Ok page /\
        fst (snapshot (snd (script io fresh_session))) =
          [user_message io p prompt;
           assistant_message io p
             ("Error generating response: " ++ str_of_exception e)]).
Proof.
  intros Hkey.
  assert (Hgen : forall user_prompt platform,
             In platform PLATFORM_NAMES ->
             generate_ai_response w user_prompt platform
             = Ok (ERROR_PREFIX ++ str_of_exception e)).
  { intros user_prompt platform Hin. rewrite generate_cases.
    destruct (dict_get_catalog_in platform Hin) as [r ->].
    destruct (Hkey (model_args w r) eq_refl) as [->|[-> ->]]; reflexivity. }
  assert (Hgeneral : In "General" PLATFORM_NAMES) by (simpl; tauto).
  split; [|split].
  - intros io _ Hh.
    destruct (script_session io fresh_session [] "General" [] None
                module_init_fresh Hgeneral (Forall_nil _))
      as (page & p' & shown & ms1 & rs1 & rr1 & Hin & Hsub & Hrun).
    pose proof (submission_block_session io [] p' [] None) as Hb.
    rewrite Hh in Hb. rewrite Hb in Hsub. injection Hsub as <- <- <- <-.
    exists page, p'. exact Hrun.
  - exact Hgen.
  - intros io prompt Hw Hh Hclick.
    destruct (script_session io fresh_session [] "General" [] None
                module_init_fresh Hgeneral (Forall_nil _))
      as (page & p' & shown & ms1 & rs1 & rr1 & Hin & Hsub & Hrun).
    pose proof (submission_block_session io [] p' [] None) as Hb.
    rewrite Hh in Hb. destruct Hb as (text & Htext & Hb).
    rewrite Hb in Hsub. injection Hsub as <- <- <- <-.
    rewrite Hw, (Hgen prompt p' Hin) in Htext. injection Htext as <-.
    exists page, p'. rewrite Hrun, Hclick, andb_false_r.
    split; reflexivity.
Qed.

Lemma missing_api_key_fails_soft_witness :
  key_rejected silent_world
    (ExternalError "GroqError" "The api_key client option must be set") /\
  generate_ai_response silent_world "Announce our new product launch" "Twitter/X"
    = Ok "Error generating response: The api_key client option must be set".
Proof.
  assert (H : key_rejected silent_world
                (ExternalError "GroqError" "The api_key client option must be set")).
  { intros args _. left. reflexivity. }
  split; [exact H|].
  apply (proj1 (proj2 (missing_api_key_fails_soft silent_world _ H))).
  simpl. tauto.
Defined.

(** * Further properties of the script *)

(** ** One run, in full *)

Lemma list_index_nth (l : list string) (x : string) (i : nat) :
  list_index l x = Ok i -> nth_error l i = Some x.
Proof.
  revert i. induction l as [|y l IH]; intros i; cbn [list_index].
  - discriminate.
  - destruct (String.eqb_spec x y) as [->|_].
    + intros [= <-]. reflexivity.
    + destruct (list_index l x) as [j|e]; cbn [Result_bind]; [|discriminate].
      intros [= <-]. cbn [nth_error]. now apply IH.
Qed.

Lemma list_index_known (p : string) :
  In p PLATFORM_NAMES ->
  exists index, list_index (dict_keys PLATFORM_CONFIG) p = Ok index.
Proof.
  simpl. intros H.
  repeat (destruct H as [<-|H]; [eexists; reflexivity|]).
  contradiction.
Qed.

Lemma chosen_platform_known (io : Run) (p : string) :
  In p PLATFORM_NAMES -> In (chosen_platform io p) PLATFORM_NAMES.
Proof.
  intros H. unfold chosen_platform.
  destruct (platform_choice io) as [i|]; [|exact H].
  destruct (nth_error (dict_keys PLATFORM_CONFIG) i) as [o|] eqn:E; [|exact H].
  rewrite catalog_keys in E. eauto using nth_error_In.
Qed.

Lemma sidebar_chosen (io : Run) (ms : list Message) (p : string) (rs : list Z)
  (rr : option (option Z)) :
  In p PLATFORM_NAMES ->
  Forall (fun r => 1 <= r <= 5) rs ->
  sidebar io (session ms p rs rr)
  = (Ok (metrics_of ms rs), session ms (chosen_platform io p) rs rr).
Proof.
  intros H Hrange. destruct (list_index_known p H) as [index Hidx].
  pose proof (list_index_nth _ _ _ Hidx) as Hnth.
  assert (Hsel : st_selectbox (dict_keys PLATFORM_CONFIG) index (platform_choice io)
                 = Ok (chosen_platform io p)).
  { unfold st_selectbox, chosen_platform. rewrite Hnth. reflexivity. }
  unfold sidebar, bind, getattr, lift, set_selected_platform.
  cbn [session selected_platform messages ratings rate_response].
  rewrite Hidx, Hsel. cbn [st_selectbox TONE_OPTIONS nth_error].
  apply (display_analytics_session ms (chosen_platform io p) rs rr Hrange).
Qed.

(** A run from the state the module-level statements leave, with the page
    it shows and the state it ends in. *)
Lemma script_run (io : Run) (s : SessionState) (ms : list Message) (p : string)
  (rs : list Z) (rr : option (option Z)) :
  module_init s = (Ok tt, session ms p rs rr) ->
  In p PLATFORM_NAMES ->
  Forall (fun r => 1 <= r <= 5) rs ->
  exists shown ms1 rs1 rr1,
    match handled io with
    | None => shown = ([], None) /\ ms1 = ms /\ rs1 = rs /\ rr1 = rr
    | Some prompt =>
        exists text,
          generate_ai_response (world io) prompt (chosen_platform io p) = Ok text /\
          shown = (exchange_blocks io (chosen_platform io p) prompt text,
                   thanks (st_radio RATING_OPTIONS (rating_choice io))) /\
          ms1 = (ms ++ [user_message io (chosen_platform io p) prompt;
                        assistant_message io (chosen_platform io p) text])%list /\
          rs1 = rated rs (st_radio RATING_OPTIONS (rating_choice io)) /\
          rr1 = Some (st_radio RATING_OPTIONS (rating_choice io))
    end /\
    script io s =
    (Ok {| sidebar_metrics := metrics_of ms rs;
           title := "Social Media AI Assistant - " ++ chosen_platform io p;
           chat_blocks := map chat_block ms ++ fst shown;
           feedback := snd shown;
           rerun := (list_truthy ms1 && clear_clicked io)%bool |},
     if (list_truthy ms1 && clear_clicked io)%bool
     then session [] (chosen_platform io p) [] rr1
     else session ms1 (chosen_platform io p) rs1 rr1).
Proof.
  intros Hinit Hin Hrange.
  pose proof (sidebar_chosen io ms p rs rr Hin Hrange) as Hside.
  pose proof (submission_block_session io ms (chosen_platform io p) rs rr) as Hsub.
  assert (Hrun : forall shown ms1 rs1 rr1,
             submission_block io (session ms (chosen_platform io p) rs rr)
             = (Ok shown, session ms1 (chosen_platform io p) rs1 rr1) ->
             script io s =
             (Ok {| sidebar_metrics := metrics_of ms rs;
                    title := "Social Media AI Assistant - " ++ chosen_platform io p;
                    chat_blocks := map chat_block ms ++ fst shown;
           feedback := snd shown;
                    rerun := (list_truthy ms1 && clear_clicked io)%bool |},
              if (list_truthy ms1 && clear_clicked io)%bool
              then session [] (chosen_platform io p) [] rr1
              else session ms1 (chosen_platform io p) rs1 rr1)).
  { intros shown ms1 rs1 rr1 Hs. unfold script, main.
    rewrite (bind_Ok _ Hinit).
    rewrite (bind_Ok _ Hside).
    erewrite bind_Ok by reflexivity.
    erewrite bind_Ok by reflexivity.
    rewrite (bind_Ok _ Hs).
    rewrite (bind_Ok _ (reset_block_session io ms1 _ rs1 rr1)).
    reflexivity. }
  destruct (handled io) as [prompt|].
  - destruct Hsub as (text & Hgen & Hsub).
    eexists; eexists; eexists; eexists. split; [exists text; eauto 6|].
    apply Hrun. exact Hsub.
  - exists ([], None), ms, rs, rr. split; [auto|]. apply Hrun. exact Hsub.
Qed.

Lemma tidy_submission (io : Run) (ms : list Message) (p' : string) (rs : list Z)
  (prompt text : string) :
  In p' PLATFORM_NAMES ->
  tidy ms rs ->
  tidy (ms ++ [user_message io p' prompt; assistant_message io p' text])
    (rated rs (st_radio RATING_OPTIONS (rating_choice io))).
Proof.
  intros Hin [Hwf Hcount]. constructor.
  - apply Forall_app. split; [exact Hwf|].
    constructor; [split; [left; reflexivity|exact Hin]|].
    constructor; [split; [right; reflexivity|exact Hin]|constructor].
  - rewrite length_app. cbn [length].
    destruct (st_radio RATING_OPTIONS (rating_choice io)); cbn [rated];
      [rewrite length_app; cbn [length]|]; lia.
Qed.

Lemma tidy_empty : tidy [] [].
Proof. constructor; [constructor|cbn; lia]. Qed.

(** What every state of a session looks like once the module-level
    statements have run on it. *)
Lemma reachable_state (s : SessionState) :
  reachable s ->
  exists ms p rs rr,
    module_init s = (Ok tt, session ms p rs rr) /\
    consistent ms p rs /\ tidy ms rs /\
    snapshot s = (ms, rs) /\ current_platform s = p /\
    (s = fresh_session \/ s = session ms p rs rr).
Proof.
  induction 1 as [|s io _ IH].
  - exists [], "General", [], None.
    split; [reflexivity|].
    split; [apply consistent_empty; simpl; tauto|].
    split; [apply tidy_empty|].
    split; [reflexivity|]. split; [reflexivity|].
    left. reflexivity.
  - destruct IH as (ms & p & rs & rr & Hinit & Hc & Ht & _).
    pose proof (platform_known _ _ _ Hc) as Hin.
    pose proof (chosen_platform_known io p Hin) as Hin'.
    destruct (script_run io s ms p rs rr Hinit Hin (ratings_in_range _ _ _ Hc))
      as (shown & ms1 & rs1 & rr1 & Hsub & ->).
    assert (H1 : consistent ms1 (chosen_platform io p) rs1 /\ tidy ms1 rs1).
    { destruct (handled io) as [prompt|].
      - destruct Hsub as (text & _ & _ & -> & -> & _).
        split; [now apply consistent_submission with p|now apply tidy_submission].
      - destruct Hsub as (_ & -> & -> & _).
        split; [now apply consistent_platform with p|exact Ht]. }
    cbn [snd].
    destruct (list_truthy ms1 && clear_clicked io)%bool.
    + exists [], (chosen_platform io p), [], rr1.
      split; [reflexivity|].
      split; [now apply consistent_empty|].
      split; [apply tidy_empty|].
      split; [reflexivity|]. split; [reflexivity|].
      right. reflexivity.
    + exists ms1, (chosen_platform io p), rs1, rr1.
      destruct H1 as [Hc1 Ht1].
      split; [reflexivity|].
      split; [exact Hc1|]. split; [exact Ht1|].
      split; [reflexivity|]. split; [reflexivity|].
      right. reflexivity.
Qed.

(** A reachable session, for the witnesses: [rated_session] after a second
    submission, this one unrated. *)
Lemma rated_session_reachable : reachable rated_session.
Proof. exact (reachable_run fresh_session _ reachable_fresh). Defined.

(** C3, at the failing input.  The rating radio exists only in the run
    that handles a submission; a click on one of its options reruns the
    script with no chat input, so lines 140-147 are skipped: the run shows
    no thanks and the rating picked is not appended. *)
Theorem rating_click_is_lost (io : Run) (s : SessionState) (v : Z) :
  reachable s ->
  chat_input io = None ->
  st_radio RATING_OPTIONS (rating_choice io) = Some v ->
  exists page,
    fst (script io s) = Ok page /\
    feedback page = None /\
    snd (snapshot (snd (script io s))) <> (snd (snapshot s) ++ [v])%list /\
    (clear_clicked io = false -> snapshot (snd (script io s)) = snapshot s).
Proof.
  intros Hs Hinput _.
  assert (Hh : handled io = None) by (unfold handled; now rewrite Hinput).
  destruct (reachable_state s Hs) as (ms & p & rs & rr & Hinit & Hc & _ & -> & _).
  destruct (script_run io s ms p rs rr Hinit (platform_known _ _ _ Hc)
              (ratings_in_range _ _ _ Hc))
    as (shown & ms1 & rs1 & rr1 & Hsub & ->).
  rewrite Hh in Hsub. destruct Hsub as (-> & -> & -> & ->).
  cbn [fst snd]. eexists. split; [reflexivity|]. split; [reflexivity|].
  split.
  - destruct (list_truthy ms && clear_clicked io)%bool;
      cbn [snapshot session ratings snd]; intros H;
      apply (f_equal (@length Z)) in H; rewrite length_app in H; cbn in H; lia.
  - intros ->. rewrite andb_false_r. reflexivity.
Qed.

Lemma rating_click_is_lost_witness :
  reachable unrated_session /\
  chat_input (rating_click echo_world 2) = None /\
  st_radio RATING_OPTIONS (rating_choice (rating_click echo_world 2)) = Some 3 /\
  snd (snapshot (snd (script (rating_click echo_world 2) unrated_session))) = [].
Proof.
  assert (H : reachable unrated_session)
    by exact (reachable_run fresh_session _ reachable_fresh).
  split; [exact H|]. split; [reflexivity|]. split; [reflexivity|].
  destruct (rating_click_is_lost (rating_click echo_world 2) unrated_session 3
              H eq_refl eq_refl) as (page & _ & _ & _ & Hsame).
  rewrite (Hsame eq_refl). reflexivity.
Defined.

(** ** The run as a whole *)

(** X1. A run of the script in a session never raises: no key of the session
    state is missing when it is read, the stored platform is always found by
    [list.index], the selectbox index is in range and no division by zero
    happens; afterwards the three keys are set. *)
Theorem script_never_raises (io : Run) (s : SessionState) :
  reachable s ->
  exists page ms p rs,
    fst (script io s) = Ok page /\
    messages (snd (script io s)) = Some ms /\
    selected_platform (snd (script io s)) = Some p /\
    ratings (snd (script io s)) = Some rs.
Proof.
  intros Hs.
  destruct (reachable_state s Hs) as (ms & p & rs & rr & Hinit & Hc & _).
  destruct (script_run io s ms p rs rr Hinit (platform_known _ _ _ Hc)
              (ratings_in_range _ _ _ Hc))
    as (shown & ms1 & rs1 & rr1 & _ & ->).
  cbn [fst snd]. eexists.
  exists (if (list_truthy ms1 && clear_clicked io)%bool then [] else ms1),
    (chosen_platform io p),
    (if (list_truthy ms1 && clear_clicked io)%bool then [] else rs1).
  split; [reflexivity|].
  destruct (list_truthy ms1 && clear_clicked io)%bool; repeat split.
Qed.

Lemma script_never_raises_witness :
  reachable rated_session /\
  exists page,
    fst (script (submit silent_world "Second post" (Some 9%nat) true) rated_session)
    = Ok page.
Proof.
  split; [exact rated_session_reachable|].
  destruct (script_never_raises (submit silent_world "Second post" (Some 9%nat) true)
              rated_session rated_session_reachable)
    as (page & _ & _ & _ & E & _).
  exists page. exact E.
Defined.

(** X2. Every message a session stores has the role "user" or "assistant"
    and the name of a catalog platform, and the platform the session has
    selected is a catalog name as well. *)
Theorem session_data_well_formed (s : SessionState) :
  reachable s ->
  Forall well_formed_message (fst (snapshot s)) /\
  In (current_platform s) PLATFORM_NAMES /\
  exists rules, dict_getitem PLATFORM_CONFIG (current_platform s) = Ok rules.
Proof.
  intros Hs.
  destruct (reachable_state s Hs) as (ms & p & rs & rr & _ & Hc & Ht & -> & -> & _).
  pose proof (platform_known _ _ _ Hc) as Hin.
  split; [exact (messages_well_formed _ _ Ht)|]. split; [exact Hin|].
  destruct (dict_get_catalog_in p Hin) as [r Hr].
  exists r. unfold dict_getitem. rewrite Hr. reflexivity.
Qed.

Lemma session_data_well_formed_witness :
  reachable rated_session /\
  Forall well_formed_message (fst (snapshot rated_session)) /\
  In (current_platform rated_session) PLATFORM_NAMES.
Proof.
  split; [exact rated_session_reachable|].
  destruct (session_data_well_formed rated_session rated_session_reachable)
    as (Hwf & Hin & _).
  split; [exact Hwf|exact Hin].
Defined.

(** X3. Every rating a session stores is one of 1..5; the average a run
    computes from them is a float between 1 and 5, shown to one decimal as
    a number of tenths between 10 and 50, or "N/A" when there is none. *)
Theorem average_rating_in_range (io : Run) (s : SessionState) :
  reachable s ->
  Forall (fun r => 1 <= r <= 5) (snd (snapshot s)) /\
  exists page value,
    fst (script io s) = Ok page /\
    nth_error (sidebar_metrics page) 1 = Some ("Average Rating", value) /\
    (snd (snapshot s) = [] /\ value = MetricStr "N/A" \/
     snd (snapshot s) <> [] /\
     exists avg,
       truediv (sum (snd (snapshot s))) (len (snd (snapshot s))) = Ok avg /\
       value = MetricStars (PyFloat.format_1f avg) /\
       (1 <= PyFloat.value avg)%Q /\ (PyFloat.value avg <= 5)%Q /\
       10 <= PyFloat.tenths avg <= 50).
Proof.
  intros Hs.
  destruct (reachable_state s Hs) as (ms & p & rs & rr & Hinit & Hc & _ & -> & _).
  pose proof (ratings_in_range _ _ _ Hc) as Hrange.
  split; [exact Hrange|].
  destruct (script_run io s ms p rs rr Hinit (platform_known _ _ _ Hc) Hrange)
    as (shown & ms1 & rs1 & rr1 & _ & ->).
  cbn [fst snd sidebar_metrics].
  destruct rs as [|r rs'].
  - eexists; eexists. split; [reflexivity|]. split; [reflexivity|].
    left. split; reflexivity.
  - destruct (average_in_range (r :: rs') ltac:(discriminate) Hrange)
      as (m & e & E & He & Hm).
    pose proof (sum_in_range _ Hrange) as Hsum.
    pose proof (len_positive r rs') as Hlen.
    pose proof (mantissa_range (sum (r :: rs')) (len (r :: rs')) e Hlen
                  ltac:(lia) ltac:(lia)) as Hmant.
    rewrite <- Hm in Hmant.
    assert (Hpos : 0 < 2 ^ (- e)) by (apply Z.pow_pos_nonneg; lia).
    eexists; eexists. split; [reflexivity|]. split.
    + unfold metrics_of, analytics_of. rewrite E. reflexivity.
    + right. split; [discriminate|]. eexists. split; [exact E|].
      split; [reflexivity|].
      rewrite value_in_range by lia.
      split; [|split].
      * unfold Qle. cbn [Qnum Qden]. rewrite Z2Pos.id by lia. lia.
      * unfold Qle. cbn [Qnum Qden]. rewrite Z2Pos.id by lia. lia.
      * apply tenths_range with (sum (r :: rs')) (len (r :: rs')); auto; lia.
Qed.

Lemma average_rating_in_range_witness :
  reachable rated_session /\
  Forall (fun r => 1 <= r <= 5) (snd (snapshot rated_session)).
Proof.
  split; [exact rated_session_reachable|].
  exact (proj1 (average_rating_in_range (submit echo_world "Second post" None false)
                  rated_session rated_session_reachable)).
Defined.

(** X4. The chat a run shows holds every stored message and then the
    exchange the run itself handles, while the "Total Interactions" count
    in the sidebar is the number of messages stored before the run: after a
    submission the count is two behind the chat.  The title names the
    platform picked in this run. *)
Theorem sidebar_count_lags_behind_chat (io : Run) (s : SessionState) :
  reachable s ->
  exists page,
    fst (script io s) = Ok page /\
    nth_error (sidebar_metrics page) 0
      = Some ("Total Interactions", MetricInt (len (fst (snapshot s)))) /\
    title page
      = "Social Media AI Assistant - " ++ current_platform (snd (script io s)) /\
    (handled io = None ->
     chat_blocks page = map chat_block (fst (snapshot s))) /\
    (forall prompt, handled io = Some prompt ->
     exists text,
       generate_ai_response (world io) prompt (current_platform (snd (script io s)))
         = Ok text /\
       chat_blocks page =
         (map chat_block (fst (snapshot s)) ++
          [{| block_role := "user"; block_markdown := prompt;
              block_caption := current_platform (snd (script io s)) ++ " - "
                               ++ strftime_HMS (now_user io) |};
           {| block_role := "assistant"; block_markdown := text;
              block_caption := current_platform (snd (script io s)) ++ " - "
                               ++ strftime_HMS (now_ai io) |}])%list /\
       len (chat_blocks page) = len (fst (snapshot s)) + 2) /\
    (clear_clicked io = false ->
     chat_blocks page = map chat_block (fst (snapshot (snd (script io s))))).
Proof.
  intros Hs.
  destruct (reachable_state s Hs) as (ms & p & rs & rr & Hinit & Hc & _ & -> & _).
  pose proof (ratings_in_range _ _ _ Hc) as Hrange.
  destruct (script_run io s ms p rs rr Hinit (platform_known _ _ _ Hc) Hrange)
    as (shown & ms1 & rs1 & rr1 & Hsub & ->).
  cbn [fst snd]. eexists. split; [reflexivity|].
  cbn [chat_blocks sidebar_metrics title].
  assert (Hplat : current_platform
                    (if (list_truthy ms1 && clear_clicked io)%bool
                     then session [] (chosen_platform io p) [] rr1
                     else session ms1 (chosen_platform io p) rs1 rr1)
                  = chosen_platform io p)
    by (destruct (list_truthy ms1 && clear_clicked io)%bool; reflexivity).
  rewrite Hplat.
  split.
  { unfold metrics_of, analytics_of.
    destruct rs as [|r rs']; [reflexivity|].
    destruct (average_in_range (r :: rs') ltac:(discriminate) Hrange)
      as (m & e & E & _).
    rewrite E. reflexivity. }
  split; [reflexivity|].
  destruct (handled io) as [prompt|].
  - destruct Hsub as (text & Hgen & -> & -> & _).
    split; [discriminate|]. split.
    + intros prompt' [= <-]. exists text. split; [exact Hgen|].
      split; [reflexivity|].
      unfold len. cbn [fst]. rewrite length_app, length_map. cbn [exchange_blocks length].
      lia.
    + intros ->. rewrite andb_false_r. cbn [fst snd snapshot session messages].
      rewrite map_app. reflexivity.
  - destruct Hsub as (-> & -> & _).
    cbn [fst]. rewrite app_nil_r.
    split; [reflexivity|]. split; [discriminate|].
    intros ->. rewrite andb_false_r. reflexivity.
Qed.

Lemma sidebar_count_lags_behind_chat_witness :
  reachable rated_session /\
  exists page,
    fst (script (submit echo_world "Second post" None false) rated_session) = Ok page /\
    nth_error (sidebar_metrics page) 0 = Some ("Total Interactions", MetricInt 2) /\
    length (chat_blocks page) = 4%nat.
Proof.
  split; [exact rated_session_reachable|].
  destruct (sidebar_count_lags_behind_chat
              (submit echo_world "Second post" None false)
              rated_session rated_session_reachable)
    as (page & E & Hcount & _ & _ & _ & Hchat).
  exists page. split; [exact E|]. split; [exact Hcount|].
  rewrite (Hchat eq_refl). reflexivity.
Defined.

(** X5. A session never holds more ratings than exchanges: twice the number
    of ratings is at most the number of messages. *)
Theorem at_most_one_rating_per_exchange (s : SessionState) :
  reachable s ->
  (2 * length (snd (snapshot s)) <= length (fst (snapshot s)))%nat.
Proof.
  intros Hs.
  destruct (reachable_state s Hs) as (ms & p & rs & rr & _ & _ & Ht & -> & _).
  exact (ratings_per_exchange _ _ Ht).
Qed.

Lemma at_most_one_rating_per_exchange_witness :
  reachable rated_session /\
  (2 * length (snd (snapshot rated_session))
   <= length (fst (snapshot rated_session)))%nat.
Proof.
  split; [exact rated_session_reachable|].
  exact (at_most_one_rating_per_exchange rated_session rated_session_reachable).
Defined.

(** X6. Unless the conversation is cleared, a run only appends: the old
    messages and ratings stay as a prefix, and what is added is nothing, or
    two messages with at most one rating. *)
Theorem history_append_only (io : Run) (s : SessionState) :
  reachable s ->
  clear_clicked io = false ->
  exists new_ms new_rs,
    snapshot (snd (script io s))
      = ((fst (snapshot s) ++ new_ms)%list, (snd (snapshot s) ++ new_rs)%list) /\
    (new_ms = [] /\ new_rs = [] \/
     length new_ms = 2%nat /\ (length new_rs <= 1)%nat).
Proof.
  intros Hs Hclick.
  destruct (reachable_state s Hs) as (ms & p & rs & rr & Hinit & Hc & _ & -> & _).
  destruct (script_run io s ms p rs rr Hinit (platform_known _ _ _ Hc)
              (ratings_in_range _ _ _ Hc))
    as (shown & ms1 & rs1 & rr1 & Hsub & ->).
  rewrite Hclick, andb_false_r. cbn [fst snd snapshot session messages ratings].
  destruct (handled io) as [prompt|].
  - destruct Hsub as (text & _ & _ & -> & -> & _).
    eexists.
    exists (match st_radio RATING_OPTIONS (rating_choice io) with
            | Some v => [v]
            | None => []
            end).
    split.
    + f_equal. unfold rated.
      destruct (st_radio RATING_OPTIONS (rating_choice io));
        [reflexivity|now rewrite app_nil_r].
    + right. split; [reflexivity|].
      destruct (st_radio RATING_OPTIONS (rating_choice io)); cbn; lia.
  - destruct Hsub as (_ & -> & -> & _).
    exists [], []. rewrite !app_nil_r. split; [reflexivity|left; split; reflexivity].
Qed.

Lemma history_append_only_witness :
  reachable rated_session /\
  clear_clicked (submit echo_world "Second post" None false) = false /\
  exists new_ms,
    fst (snapshot (snd (script (submit echo_world "Second post" None false)
                          rated_session)))
    = (fst (snapshot rated_session) ++ new_ms)%list.
Proof.
  split; [exact rated_session_reachable|]. split; [reflexivity|].
  destruct (history_append_only (submit echo_world "Second post" None false)
              rated_session rated_session_reachable eq_refl)
    as (new_ms & new_rs & E & _).
  exists new_ms. rewrite E. reflexivity.
Defined.

(** X7. A run in which the chat input returns nothing, or the empty string,
    does not consult the generation service: the run is the same in every
    world; and unless the conversation is cleared the two sequences are as
    before. *)
Theorem idle_run_ignores_world (io : Run) (w : World) (s : SessionState) :
  chat_input io = None \/ chat_input io = Some "" ->
  script (with_world w io) s = script io s /\
  (reachable s -> clear_clicked io = false ->
   snapshot (snd (script io s)) = snapshot s).
Proof.
  intros Hidle.
  assert (Hh : handled io = None).
  { unfold handled. destruct Hidle as [->| ->]; reflexivity. }
  split.
  - destruct io as [w0 pc tc ci nu na rc cc]. cbn in Hidle.
    unfold script, main, sidebar, submission_block, reset_block, with_world.
    cbn [world platform_choice tone_choice chat_input now_user now_ai
         rating_choice clear_clicked].
    destruct Hidle as [->| ->]; reflexivity.
  - intros Hs Hclick.
    destruct (reachable_state s Hs) as (ms & p & rs & rr & Hinit & Hc & _ & -> & _).
    destruct (script_run io s ms p rs rr Hinit (platform_known _ _ _ Hc)
              (ratings_in_range _ _ _ Hc))
      as (shown & ms1 & rs1 & rr1 & Hsub & ->).
    rewrite Hh in Hsub. destruct Hsub as (_ & -> & -> & _).
    rewrite Hclick, andb_false_r. reflexivity.
Qed.

Lemma idle_run_ignores_world_witness :
  chat_input (submit echo_world "" (Some 2%nat) false) = Some "" /\
  script (with_world silent_world (submit echo_world "" (Some 2%nat) false))
    rated_session
  = script (submit echo_world "" (Some 2%nat) false) rated_session.
Proof.
  split; [reflexivity|].
  exact (proj1 (idle_run_ignores_world (submit echo_world "" (Some 2%nat) false)
                  silent_world rated_session (or_intror eq_refl))).
Defined.

(** X8. The platform a run leaves selected is the one the user picked in
    the selectbox; with no pick, or a pick outside the options, it is the
    platform selected before ("General" in a new session).  Clearing the
    conversation does not change it. *)
Theorem platform_selection_persists (io : Run) (s : SessionState) :
  reachable s ->
  (platform_choice io = None ->
   selected_platform (snd (script io s)) = Some (current_platform s)) /\
  (forall i, platform_choice io = Some i ->
   selected_platform (snd (script io s))
   = Some (nth i (dict_keys PLATFORM_CONFIG) (current_platform s))).
Proof.
  intros Hs.
  destruct (reachable_state s Hs) as (ms & p & rs & rr & Hinit & Hc & _ & _ & -> & _).
  destruct (script_run io s ms p rs rr Hinit (platform_known _ _ _ Hc)
              (ratings_in_range _ _ _ Hc))
    as (shown & ms1 & rs1 & rr1 & _ & ->).
  assert (E : selected_platform
                (snd (@Ok Page {| sidebar_metrics := metrics_of ms rs;
                        title := "Social Media AI Assistant - "
                                 ++ chosen_platform io p;
                        chat_blocks := map chat_block ms ++ fst shown;
           feedback := snd shown;
                        rerun := (list_truthy ms1 && clear_clicked io)%bool |},
                      if (list_truthy ms1 && clear_clicked io)%bool
                      then session [] (chosen_platform io p) [] rr1
                      else session ms1 (chosen_platform io p) rs1 rr1))
              = Some (chosen_platform io p))
    by (destruct (list_truthy ms1 && clear_clicked io)%bool; reflexivity).
  rewrite E. unfold chosen_platform. split.
  - intros ->. reflexivity.
  - intros i ->. f_equal.
    destruct (nth_error (dict_keys PLATFORM_CONFIG) i) as [o|] eqn:Hn.
    + symmetry. now apply nth_error_nth.
    + symmetry. apply nth_overflow. now apply nth_error_None.
Qed.

Lemma platform_selection_persists_witness :
  reachable rated_session /\
  selected_platform
    (snd (script {| world := silent_world; platform_choice := None;
                    tone_choice := None; chat_input := None;
                    now_user := noon; now_ai := noon;
                    rating_choice := None; clear_clicked := true |}
            rated_session))
  = Some "Twitter/X".
Proof.
  split; [exact rated_session_reachable|].
  exact (proj1 (platform_selection_persists
                  {| world := silent_world; platform_choice := None;
                     tone_choice := None; chat_input := None;
                     now_user := noon; now_ai := noon;
                     rating_choice := None; clear_clicked := true |}
                  rated_session rated_session_reachable) eq_refl).
Defined.

(** X9. The module-level statements never raise and never overwrite: on any
    session state they leave the messages, the ratings, the platform and
    the radio's key as they are, setting only the keys that are missing, so
    running them again changes nothing. *)
Theorem module_init_keeps_state (s : SessionState) :
  fst (module_init s) = Ok tt /\
  snapshot (snd (module_init s)) = snapshot s /\
  current_platform (snd (module_init s)) = current_platform s /\
  rate_response (snd (module_init s)) = rate_response s /\
  messages (snd (module_init s)) <> None /\
  selected_platform (snd (module_init s)) <> None /\
  ratings (snd (module_init s)) <> None /\
  module_init (snd (module_init s)) = (Ok tt, snd (module_init s)).
Proof.
  destruct s as [[ms|] [p|] [rs|] rr]; cbn; repeat split; discriminate.
Qed.

Lemma module_init_keeps_state_witness :
  fst (module_init rated_session) = Ok tt /\
  snapshot (snd (module_init rated_session)) = snapshot rated_session.
Proof.
  destruct (module_init_keeps_state rated_session) as (E & Hsnap & _).
  split; [exact E|exact Hsnap].
Defined.

(** X10. [display_analytics] only reads: it leaves the session state as it
    is, never raises [ZeroDivisionError], and raises [AttributeError]
    exactly when the messages or the ratings key is missing. *)
Theorem display_analytics_read_only (s : SessionState) :
  snd (display_analytics s) = s /\
  (forall m, fst (display_analytics s) <> Raise (ZeroDivisionError m)) /\
  (messages s = None \/ ratings s = None <->
   exists m, fst (display_analytics s) = Raise (AttributeError m)).
Proof.
  split; [|split; [intros m; apply display_analytics_no_zero_division|]].
  - destruct (messages s) as [ms|] eqn:Hm.
    + destruct (ratings s) as [rs|] eqn:Hr.
      * now rewrite (display_analytics_run s ms rs Hm Hr).
      * cbv [display_analytics bind getattr]. rewrite Hm. cbv beta iota zeta.
        rewrite Hr. reflexivity.
    + cbv [display_analytics bind getattr]. rewrite Hm. reflexivity.
  - destruct (messages s) as [ms|] eqn:Hm.
    + destruct (ratings s) as [rs|] eqn:Hr.
      * rewrite (display_analytics_run s ms rs Hm Hr). cbn [fst].
        split; [intros [H|H]; discriminate H|intros [m H]; exfalso].
        unfold analytics_of in H. destruct rs as [|r rs']; [discriminate H|].
        unfold truediv in H.
        destruct (len (r :: rs') =? 0); [discriminate H|].
        destruct (PyFloat.div (sum (r :: rs')) (len (r :: rs'))); discriminate H.
      * split; [intros _|intros _; right; reflexivity].
        cbv [display_analytics bind getattr]. rewrite Hm. cbv beta iota zeta.
        rewrite Hr. eexists. reflexivity.
    + split; [intros _|intros _; left; reflexivity].
      cbv [display_analytics bind getattr]. rewrite Hm. eexists. reflexivity.
Qed.

Lemma display_analytics_read_only_witness :
  messages fresh_session = None /\
  exists m, fst (display_analytics fresh_session) = Raise (AttributeError m).
Proof.
  split; [reflexivity|].
  exact (proj1 (proj2 (proj2 (display_analytics_read_only fresh_session)))
           (or_introl eq_refl)).
Defined.

(** X11. A run asks for a rerun exactly when the button is clicked while
    the session has messages from before or from the submission the run has
    just handled; the run then ends with both sequences empty. *)
Theorem rerun_after_clear (io : Run) (s : SessionState) :
  reachable s ->
  exists page,
    fst (script io s) = Ok page /\
    (rerun page = true <->
     clear_clicked io = true /\ (fst (snapshot s) <> [] \/ handled io <> None)) /\
    (rerun page = true -> snapshot (snd (script io s)) = ([], [])).
Proof.
  intros Hs.
  destruct (reachable_state s Hs) as (ms & p & rs & rr & Hinit & Hc & _ & -> & _).
  destruct (script_run io s ms p rs rr Hinit (platform_known _ _ _ Hc)
              (ratings_in_range _ _ _ Hc))
    as (shown & ms1 & rs1 & rr1 & Hsub & ->).
  cbn [fst snd]. eexists. split; [reflexivity|]. cbn [rerun].
  split.
  - rewrite andb_true_iff.
    assert (Hms1 : list_truthy ms1 = true <-> ms <> [] \/ handled io <> None).
    { destruct (handled io) as [prompt|].
      - destruct Hsub as (text & _ & _ & -> & _).
        split; [intros _; right; discriminate|intros _].
        destruct ms; reflexivity.
      - destruct Hsub as (_ & -> & _).
        destruct ms as [|m ms']; cbn [list_truthy].
        + split; [discriminate|]. intros [H|H]; exfalso; apply H; reflexivity.
        + split; [intros _; left; discriminate|reflexivity]. }
    rewrite Hms1. tauto.
  - intros ->. reflexivity.
Qed.

Lemma rerun_after_clear_witness :
  reachable rated_session /\
  snapshot (snd (script (submit echo_world "" None true) rated_session)) = ([], []).
Proof.
  split; [exact rated_session_reachable|].
  destruct (rerun_after_clear (submit echo_world "" None true) rated_session
              rated_session_reachable) as (page & E & Hiff & Hclear).
  apply Hclear. apply Hiff. split; [reflexivity|left; discriminate].
Defined.

(** ** The text [generate_ai_response] returns *)

Lemma lstrip_first (s : string) (c : ascii) :
  first_char (PyStr.lstrip s) = Some c -> PyStr.isspace c = false.
Proof.
  induction s as [|a s IH]; cbn [PyStr.lstrip]; [discriminate|].
  destruct (PyStr.isspace a) eqn:Ha; [exact IH|].
  cbn. intros [= <-]. exact Ha.
Qed.

Lemma rstrip_first (s : string) (c : ascii) :
  first_char (PyStr.rstrip s) = Some c -> first_char s = Some c.
Proof.
  destruct s as [|a s]; cbn [PyStr.rstrip]; [discriminate|].
  destruct (PyStr.rstrip s); [destruct (PyStr.isspace a)|]; cbn;
    congruence.
Qed.

Lemma rstrip_last (s : string) (c : ascii) :
  last_char (PyStr.rstrip s) = Some c -> PyStr.isspace c = false.
Proof.
  induction s as [|a s IH]; cbn [PyStr.rstrip]; [discriminate|].
  destruct (PyStr.rstrip s) as [|b r].
  - destruct (PyStr.isspace a) eqn:Ha; cbn; [discriminate|].
    intros [= <-]. exact Ha.
  - exact IH.
Qed.




(** X12. The string [generate_ai_response] returns never begins with a
    whitespace character, and when the generation succeeded it does not
    end with one either. *)
Theorem generated_text_is_trimmed (w : World) (user_prompt platform : string) :
  exists text,
    generate_ai_response w user_prompt platform = Ok text /\
    (forall c, first_char text = Some c -> PyStr.isspace c = false) /\
    (forall generated,
        generation_attempt w user_prompt platform = Ok generated ->
        forall c, last_char text = Some c -> PyStr.isspace c = false).
Proof.
  assert (Hok : forall response c,
             first_char (PyStr.strip response) = Some c -> PyStr.isspace c = false).
  { intros response c H. apply (lstrip_first response). now apply rstrip_first. }
  unfold generate_ai_response.
  destruct (generation_attempt w user_prompt platform) as [generated|e] eqn:E;
    cbn [try_except]; eexists; (split; [reflexivity|]).
  - unfold generation_attempt, dict_getitem, new_ChatGroq in E.
    destruct (dict_get PLATFORM_CONFIG platform) as [rules|]; cbn [Result_bind] in E;
      [|discriminate].
    destruct (ChatGroq_init w (model_args w rules)); cbn [Result_bind] in E;
      [|discriminate].
    destruct (invoke w _ _) as [response|]; cbn [Result_bind] in E; [|discriminate].
    injection E as <-. split; [apply Hok|].
    intros _ _ c. apply rstrip_last.
  - split; [|discriminate]. cbn. intros c [= <-]. reflexivity.
Qed.

Lemma generated_text_is_trimmed_witness :
  generate_ai_response echo_world "hi" "General" = Ok "Post: hi" /\
  forall c, last_char "Post: hi" = Some c -> PyStr.isspace c = false.
Proof.
  split; [reflexivity|].
  destruct (generated_text_is_trimmed echo_world "hi" "General")
    as (text & E & _ & Hlast).
  vm_compute in E. injection E as <-.
  exact (Hlast "Post: hi" eq_refl).
Defined.



